(** * Kusto result tables: a model of [azure/kusto/data/_models.py]

    The module decodes one wire table document (column metadata plus raw
    rows) into a table of rows that are indexed both by position and by
    column name, and keeps the seventh fractional digit of temporal values
    that [datetime]/[timedelta] cannot hold.

    The development follows the source top to bottom: Python values and
    exceptions, the string primitives the decoder uses, [_get_precise_repr],
    [WellKnownDataSet], [KustoResultRow], [KustoResultColumn] and
    [KustoResultTable]; the properties come after the definitions. *)

From Stdlib Require Import String Ascii List ZArith Lia Bool Arith.
Import ListNotations.
Local Open Scope string_scope.
Local Open Scope list_scope.

Set Implicit Arguments.
Local Set Warnings "-register-all,-notation-for-abbreviation".

(** ** Exceptions and the error monad *)

(** A computation either returns or raises. *)
Inductive result (E A : Type) : Type :=
| Ok (a : A)
| Raise (e : E).
Arguments Ok {E A} a.
Arguments Raise {E A} e.

Definition bind {E A B} (c : result E A) (k : A -> result E B) : result E B :=
  match c with
  | Ok a => k a
  | Raise e => Raise e
  end.

Notation "x <- c ;; k" := (bind c (fun x => k))
  (at level 61, c at next level, right associativity).
Notation "' p <- c ;; k" := (bind c (fun x => let 'p := x in k))
  (at level 61, p pattern, c at next level, right associativity).

(** [mapM f l] runs [f] on the elements of [l] from left to right and stops
    at the first exception: a list comprehension. *)
Fixpoint mapM {E A B} (f : A -> result E B) (l : list A) : result E (list B) :=
  match l with
  | [] => Ok []
  | a :: l' => b <- f a ;; bs <- mapM f l' ;; Ok (b :: bs)
  end.

(** [foldM f l s] threads the state [s] through a [for] loop over [l]. *)
Fixpoint foldM {E A S} (f : S -> A -> result E S) (l : list A) (s : S)
  : result E S :=
  match l with
  | [] => Ok s
  | a :: l' => s' <- f s a ;; foldM f l' s'
  end.

(** ** Python values *)

(** What [json.loads] produces; [F] is the type of Python floats. A dict is
    the list of its bindings: the keys of a JSON object are strings and are
    pairwise distinct. *)
Inductive json (F : Type) : Type :=
| JNull
| JBool (b : bool)
| JInt (z : Z)
| JFloat (f : F)
| JStr (s : string)
| JList (l : list (json F))
| JDict (d : list (string * json F)).
Arguments JNull {F}.
Arguments JBool {F} b.
Arguments JInt {F} z.
Arguments JFloat {F} f.
Arguments JStr {F} s.
Arguments JList {F} l.
Arguments JDict {F} d.

(** The exceptions that can leave the module. [KustoServiceError] carries
    its two constructor arguments; [OtherError] stands for any exception
    class of a converter that the module never catches by name. *)
Inductive pyexn (F : Type) : Type :=
| KeyError
| IndexError
| AttributeError
| TypeError
| ValueError
| KustoServiceError (message : json F) (payload : json F)
| OtherError (name : string).
Arguments KeyError {F}.
Arguments IndexError {F}.
Arguments AttributeError {F}.
Arguments TypeError {F}.
Arguments ValueError {F}.
Arguments KustoServiceError {F} message payload.
Arguments OtherError {F} name.

(** [datetime.timedelta] is a normalised triple (days, seconds,
    microseconds), that is, a signed count of microseconds. *)
Definition timedelta : Type := Z.

(** [abs(td) == td] *)
Definition timedelta_is_abs (td : timedelta) : bool := Z.eqb (Z.abs td) td.

(** ** String primitives *)

(** Text is ASCII, as the wire format of temporal values and of type names
    is: [isdigit], [isalpha] and [lower] are the methods of [str] on
    characters below 128. Above 128 [str.isdigit] and [str.isalpha] accept
    further Unicode characters, which these definitions leave out; a
    property that rests on a character being no digit or no letter says in
    a hypothesis that the character is below 128. *)
Module PyStr.

Definition isdigit (c : ascii) : bool :=
  let n := nat_of_ascii c in (48 <=? n)%nat && (n <=? 57)%nat.

Definition isupper (c : ascii) : bool :=
  let n := nat_of_ascii c in (65 <=? n)%nat && (n <=? 90)%nat.

Definition islower (c : ascii) : bool :=
  let n := nat_of_ascii c in (97 <=? n)%nat && (n <=? 122)%nat.

Definition isalpha (c : ascii) : bool := isupper c || islower c.

(** [int(c)] for a character that [isdigit] accepts. *)
Definition digit_value (c : ascii) : Z := Z.of_nat (nat_of_ascii c - 48).

Definition lower_char (c : ascii) : ascii :=
  if isupper c then ascii_of_nat (nat_of_ascii c + 32) else c.

(** [s.lower()] *)
Fixpoint lower (s : string) : string :=
  match s with
  | EmptyString => EmptyString
  | String c s' => String (lower_char c) (lower s')
  end.

(** [s.split(sep)] for a one-character separator: never empty, the empty
    string splits into one empty field. *)
Fixpoint split (sep : ascii) (s : string) : list string :=
  match s with
  | EmptyString => [EmptyString]
  | String c s' =>
      if Ascii.eqb c sep then EmptyString :: split sep s'
      else match split sep s' with
           | [] => [String c EmptyString]
           | field :: fields => String c field :: fields
           end
  end.

(** [s[-1]], which raises IndexError on the empty string (here [None]). *)
Fixpoint last (s : string) : option ascii :=
  match s with
  | EmptyString => None
  | String c EmptyString => Some c
  | String _ s' => last s'
  end.

(** [s[:-n]] for [n > 0]: all but the last [n] characters, empty when the
    string is shorter. *)
Definition drop_last (n : nat) (s : string) : string :=
  substring 0 (String.length s - n) s.

(** [s[i]] for [i >= 0]. *)
Definition index (i : nat) (s : string) : option ascii := String.get i s.

Definition of_char (c : ascii) : string := String c EmptyString.

(** The characters of [s], each as a string: iterating over a [str]. *)
Fixpoint chars (s : string) : list string :=
  match s with
  | EmptyString => []
  | String c s' => of_char c :: chars s'
  end.

(** [c not in s] and "every character of [s] is a digit". *)
Fixpoint no_char (c : ascii) (s : string) : bool :=
  match s with
  | EmptyString => true
  | String x s' => negb (Ascii.eqb x c) && no_char c s'
  end.

Fixpoint all_digits (s : string) : bool :=
  match s with
  | EmptyString => true
  | String x s' => isdigit x && all_digits s'
  end.

(** [str(n)] for an integer. *)
Definition digit_char (d : nat) : ascii := ascii_of_nat (48 + d).

Fixpoint of_pos_aux (fuel : nat) (n : nat) (acc : string) : string :=
  match fuel with
  | O => acc
  | S fuel' =>
      let acc' := String (digit_char (n mod 10)) acc in
      match (n / 10)%nat with
      | O => acc'
      | q => of_pos_aux fuel' q acc'
      end
  end.

Definition of_nat (n : nat) : string := of_pos_aux (S n) n EmptyString.

Definition of_Z (z : Z) : string :=
  match z with
  | Z0 => "0"
  | Zpos p => of_nat (Pos.to_nat p)
  | Zneg p => String "-" (of_nat (Pos.to_nat p))
  end.

End PyStr.

(** ** Distinct names

    The names of a list in the order of their first occurrence: the keys a
    dict ends with when the names are assigned to it one after the other. *)
Fixpoint add_name (n : string) (seen : list string) : list string :=
  match seen with
  | [] => [n]
  | m :: seen' => if String.eqb m n then seen else m :: add_name n seen'
  end.

Definition distinct_names (names : list string) : list string :=
  fold_left (fun seen n => add_name n seen) names [].

(** ** What the module imports

    [_converters], [decimal.Decimal], the float arithmetic behind
    [timedelta.total_seconds()], [int()] and [float()], and the flag that the
    import of [pandas] sets are not part of the file; the decoder is
    parametric in them. *)
Class Host : Type := {
  float : Type;
  datetime : Type;
  decimal : Type;
  (** [keep_high_precision_values], fixed when the module is imported *)
  keep_high_precision_values : bool;
  (** [_converters.to_datetime] *)
  to_datetime : json float -> result (pyexn float) datetime;
  (** [_converters.to_timedelta] *)
  to_timedelta : json float -> result (pyexn float) timedelta;
  (** [decimal.Decimal] *)
  Decimal : json float -> result (pyexn float) decimal;
  (** [timedelta.total_seconds()] *)
  total_seconds : timedelta -> float;
  (** [int(x)] for a float *)
  int_of_float : float -> Z;
  (** [float(s)] for a string *)
  float_of_str : string -> result (pyexn float) float;
  (** [bool(x)] for a float *)
  float_truthy : float -> bool;
  (** [a == b] between two of [None], booleans and numbers *)
  scalar_eqb : json float -> json float -> bool
}.

Section Models.

Context {H : Host}.

Notation json := (json float).
Notation exn := (pyexn float).
Notation M := (result exn).

(** *** Built-in operations on values *)

(** [bool(x)] *)
Definition truthy (x : json) : bool :=
  match x with
  | JNull => false
  | JBool b => b
  | JInt z => negb (Z.eqb z 0)
  | JFloat f => float_truthy f
  | JStr s => negb (String.eqb s "")
  | JList l => match l with [] => false | _ => true end
  | JDict d => match d with [] => false | _ => true end
  end.

(** [isinstance(x, dict)] *)
Definition is_dict (x : json) : bool :=
  match x with JDict _ => true | _ => false end.

Fixpoint assoc (k : string) (d : list (string * json)) : option json :=
  match d with
  | [] => None
  | (k', v) :: d' => if String.eqb k' k then Some v else assoc k d'
  end.

(** [d.get(k)] on a value: only a dict has the method. *)
Definition py_get (x : json) (k : string) : M json :=
  match x with
  | JDict d => Ok (match assoc k d with Some v => v | None => JNull end)
  | _ => Raise AttributeError
  end.

(** [x[k]] for a string [k]. *)
Definition subscript_str (x : json) (k : string) : M json :=
  match x with
  | JDict d => match assoc k d with Some v => Ok v | None => Raise KeyError end
  | _ => Raise TypeError
  end.

(** [x[i]] for a natural number [i]. *)
Definition subscript_nat (x : json) (i : nat) : M json :=
  match x with
  | JList l => match nth_error l i with Some v => Ok v | None => Raise IndexError end
  | JStr s =>
      match PyStr.index i s with
      | Some c => Ok (JStr (PyStr.of_char c))
      | None => Raise IndexError
      end
  | JDict _ => Raise KeyError
  | _ => Raise TypeError
  end.

(** The elements a [for] loop over [x] visits. *)
Definition py_iter (x : json) : M (list json) :=
  match x with
  | JList l => Ok l
  | JStr s => Ok (map JStr (PyStr.chars s))
  | JDict d => Ok (map (fun kv => JStr (fst kv)) d)
  | _ => Raise TypeError
  end.

(** [enumerate(l)] *)
Definition enumerate {A} (l : list A) : list (nat * A) :=
  combine (seq 0 (length l)) l.

(** *** Column descriptors (the class comes later in the source; the row
    decoder only reads its attributes) *)

Record KustoResultColumn : Type := {
  column_name : json;
  column_type : json;
  ordinal : nat
}.

(** *** Dictionaries of a row

    The keys a row uses: a column name that is a string, a column name that
    is another hashable value, or a column descriptor itself. Descriptors
    hash by identity; those of one table carry pairwise distinct ordinals,
    which is what is compared. *)
Inductive key : Type :=
| KName (s : string)
| KScalar (j : json)
| KColumn (c : KustoResultColumn).

Definition key_eqb (a b : key) : bool :=
  match a, b with
  | KName s, KName s' => String.eqb s s'
  | KScalar j, KScalar j' => scalar_eqb j j'
  | KColumn c, KColumn c' => Nat.eqb (ordinal c) (ordinal c')
  | _, _ => false
  end.

(** Hashing a value to use it as a key: lists and dicts are unhashable. *)
Definition key_of (j : json) : M key :=
  match j with
  | JStr s => Ok (KName s)
  | JList _ | JDict _ => Raise TypeError
  | _ => Ok (KScalar j)
  end.

(** A dict in insertion order. *)
Definition pydict (V : Type) : Type := list (key * V).

(** [d[k] = v]: an existing key keeps its place, a new one goes last. *)
Fixpoint dict_set {V} (k : key) (v : V) (d : pydict V) : pydict V :=
  match d with
  | [] => [(k, v)]
  | (k', v') :: d' =>
      if key_eqb k' k then (k', v) :: d' else (k', v') :: dict_set k v d'
  end.

Fixpoint dict_get {V} (k : key) (d : pydict V) : option V :=
  match d with
  | [] => None
  | (k', v) :: d' => if key_eqb k' k then Some v else dict_get k d'
  end.

(** *** Decoded values *)

Inductive value : Type :=
| VJson (j : json)
| VDatetime (d : datetime)
| VTimedelta (t : timedelta)
| VDecimal (d : decimal).

Definition VNone : value := VJson JNull.

(** *** [_get_precise_repr]

    The keyword arguments of the call: the locals of the row decoder, each
    [None] until the decoder assigns it. *)
Record precise_kwargs : Type := {
  seconds_fractions_part : option string;
  last : string;
  lookback : option nat;
  seventh_char : option ascii
}.

Definition _get_precise_repr (t : string) (raw_value : json)
    (typed_value : value) (kwargs : precise_kwargs) : M json :=
  if String.eqb t "datetime" then
    match seventh_char kwargs with
    | Some c =>
        if PyStr.isdigit c then
          (* raw_value[:-lookback] + seventh_char + "00" + last *)
          match raw_value, lookback kwargs with
          | JStr s, Some n =>
              Ok (JStr (PyStr.drop_last n s ++ PyStr.of_char c ++ "00"
                        ++ last kwargs)%string)
          | _, _ => Raise TypeError
          end
        else Ok raw_value
    | None => Ok raw_value
    end
  else if String.eqb t "timespan" then
    match typed_value with
    | VTimedelta td =>
        match seconds_fractions_part kwargs with
        | Some frac =>
            if String.eqb frac "" then Ok (JFloat (total_seconds td))
            else
              let whole_part := int_of_float (total_seconds td) in
              let fractions := (PyStr.of_Z whole_part ++ "." ++ frac)%string in
              total <- float_of_str fractions ;;
              Ok (JFloat total)
        | None => Ok (JFloat (total_seconds td))
        end
    | _ => Raise AttributeError
    end
  else
    (* "Unknown type {t}".format(t) has no keyword [t] to fill the field *)
    Raise KeyError.

(** *** [WellKnownDataSet] *)

Inductive WellKnownDataSet : Type :=
| PrimaryResult
| QueryCompletionInformation
| TableOfContents
| QueryProperties.

(** [member.value] *)
Definition enum_value (k : WellKnownDataSet) : string :=
  match k with
  | PrimaryResult => "PrimaryResult"
  | QueryCompletionInformation => "QueryCompletionInformation"
  | TableOfContents => "TableOfContents"
  | QueryProperties => "QueryProperties"
  end.

(** [WellKnownDataSet[x]]: the member of that name. *)
Definition enum_by_name (x : json) : M WellKnownDataSet :=
  match x with
  | JStr s =>
      if String.eqb s "PrimaryResult" then Ok PrimaryResult
      else if String.eqb s "QueryCompletionInformation"
           then Ok QueryCompletionInformation
      else if String.eqb s "TableOfContents" then Ok TableOfContents
      else if String.eqb s "QueryProperties" then Ok QueryProperties
      else Raise KeyError
  | JList _ | JDict _ => Raise TypeError
  | _ => Raise KeyError
  end.

(** *** [KustoResultRow] *)

Record KustoResultRow : Type := {
  _value_by_name : pydict value;
  _value_by_index : list value;
  _hidden_values : list value;
  _seventh_digit : pydict Z
}.

Definition empty_row : KustoResultRow :=
  {| _value_by_name := []; _value_by_index := [];
     _hidden_values := []; _seventh_digit := [] |}.

(** [convertion_funcs[column_type](value)], when the type has an entry. *)
Definition convertion_funcs (column_type : string)
  : option (json -> M value) :=
  if String.eqb column_type "datetime"
  then Some (fun v => d <- to_datetime v ;; Ok (VDatetime d))
  else if String.eqb column_type "timespan"
  then Some (fun v => t <- to_timedelta v ;; Ok (VTimedelta t))
  else if String.eqb column_type "decimal"
  then Some (fun v => d <- Decimal v ;; Ok (VDecimal d))
  else None.

Definition convert (column_type : string) (v : json) : M value :=
  match convertion_funcs column_type with
  | Some f => f v
  | None => Raise KeyError
  end.

(** [value[-1] if isinstance(value, str) and value[-1].isalpha() else ""];
    the index raises on the empty string. *)
Definition trailing_letter (v : json) : M string :=
  match v with
  | JStr s =>
      match PyStr.last s with
      | Some c => Ok (if PyStr.isalpha c then PyStr.of_char c else "")
      | None => Raise IndexError
      end
  | _ => Ok ""
  end.

(** [value.split(":")[2]], then [.split(".")[1]]: the fractional seconds. *)
Definition fractions_of (v : json) : M string :=
  match v with
  | JStr s =>
      match nth_error (PyStr.split ":" s) 2 with
      | Some seconds_part =>
          match nth_error (PyStr.split "." seconds_part) 1 with
          | Some frac => Ok frac
          | None => Raise IndexError
          end
      | None => Raise IndexError
      end
  | _ => Raise AttributeError
  end.

(** [seconds_fractions_part[6]] *)
Definition seventh_of (frac : string) : M ascii :=
  match PyStr.index 6 frac with
  | Some c => Ok c
  | None => Raise IndexError
  end.

(** The sign a tick is stored with: lines 104 to 111. *)
Definition signed_tick (column_type : string) (typed_value : value)
    (tick : Z) : M Z :=
  if String.eqb column_type "datetime" then Ok tick
  else if String.eqb column_type "timespan" then
    match typed_value with
    | VTimedelta td => Ok (if timedelta_is_abs td then tick else (- tick)%Z)
    | _ => Raise TypeError
    end
  else Raise TypeError.

(** [lookback = 2 if last else 1] and [value[:-lookback] + last]: the text
    that is converted when a seventh digit was found. *)
Definition lookback_of (last : string) : nat :=
  if String.eqb last "" then 1%nat else 2%nat.

Definition truncated_text (s last : string) : string :=
  (PyStr.drop_last (lookback_of last) s ++ last)%string.

(** The body of the [try] of a temporal cell. Assignments to locals survive
    an exception, so the locals are returned next to the outcome; the
    outcome is the typed value and the updated [_seventh_digit]. *)
Definition try_precision (column_type : string) (column : KustoResultColumn)
    (v : json) (last : string) (digits : pydict Z)
  : precise_kwargs * M (value * pydict Z) :=
  let kw sfp lb c :=
    {| seconds_fractions_part := sfp; last := last;
       lookback := lb; seventh_char := c |} in
  match fractions_of v with
  | Raise e => (kw None None None, Raise e)
  | Ok frac =>
      match seventh_of frac with
      | Raise e => (kw (Some frac) None None, Raise e)
      | Ok c =>
          if PyStr.isdigit c then
            let tick := PyStr.digit_value c in
            let lb := lookback_of last in
            (kw (Some frac) (Some lb) (Some c),
             match v with
             | JStr s =>
                 typed_value <- convert column_type
                                  (JStr (truncated_text s last)) ;;
                 if Z.eqb tick 0 then Ok (typed_value, digits)
                 else
                   t <- signed_tick column_type typed_value tick ;;
                   k <- key_of (column_name column) ;;
                   Ok (typed_value, dict_set k t digits)
             | _ => Raise TypeError
             end)
          else
            (kw (Some frac) None (Some c),
             typed_value <- convert column_type v ;;
             Ok (typed_value, digits))
      end
  end.

(** [except (IndexError, AttributeError)] *)
Definition caught (e : exn) : bool :=
  match e with
  | IndexError | AttributeError => true
  | _ => false
  end.

(** The handler: a caught exception converts the whole raw value and leaves
    [_seventh_digit] as it was. *)
Definition except_fallback (column_type : string) (v : json)
    (digits : pydict Z) (outcome : M (value * pydict Z))
  : M (value * pydict Z) :=
  match outcome with
  | Raise e =>
      if caught e
      then typed_value <- convert column_type v ;; Ok (typed_value, digits)
      else Raise e
  | Ok r => Ok r
  end.

(** A non-null cell of a [datetime] or [timespan] column: lines 81 to 130.
    Returns the typed value, the side value when the flag is set, and the
    updated [_seventh_digit]. *)
Definition decode_temporal (column_type : string) (column : KustoResultColumn)
    (v : json) (digits : pydict Z) : M (value * option value * pydict Z) :=
  last <- trailing_letter v ;;
  let '(kwargs, outcome) := try_precision column_type column v last digits in
  '(typed_value, digits') <- except_fallback column_type v digits outcome ;;
  if keep_high_precision_values then
    hidden <- _get_precise_repr column_type v typed_value kwargs ;;
    Ok (typed_value, Some (VJson hidden), digits')
  else Ok (typed_value, None, digits').

(** One iteration of the loop of [__init__]: the cell [value] at position
    [i]. *)
Definition decode_cell (columns : list KustoResultColumn)
    (self : KustoResultRow) (cell : nat * json) : M KustoResultRow :=
  let '(i, v) := cell in
  match nth_error columns i with
  | None => Raise IndexError
  | Some column =>
      let hide (h : value) :=
        if keep_high_precision_values
        then _hidden_values self ++ [h] else _hidden_values self in
      match column_type column with
      | JStr declared =>
          let column_type := PyStr.lower declared in
          '(typed_value, hidden, digits) <-
             (if String.eqb column_type "datetime"
                 || String.eqb column_type "timespan"
              then
                match v with
                | JNull =>
                    Ok (VNone,
                        if keep_high_precision_values then Some VNone else None,
                        _seventh_digit self)
                | _ => decode_temporal column_type column v (_seventh_digit self)
                end
              else
                match convertion_funcs column_type with
                | Some f =>
                    typed_value <- f v ;;
                    Ok (typed_value,
                        if keep_high_precision_values then Some (VJson v) else None,
                        _seventh_digit self)
                | None =>
                    Ok (VJson v,
                        if keep_high_precision_values then Some (VJson v) else None,
                        _seventh_digit self)
                end) ;;
          k <- key_of (column_name column) ;;
          Ok {| _value_by_name := dict_set k typed_value (_value_by_name self);
                _value_by_index := _value_by_index self ++ [typed_value];
                _hidden_values :=
                  match hidden with
                  | Some h => _hidden_values self ++ [h]
                  | None => _hidden_values self
                  end;
                _seventh_digit := digits |}
      | _ =>
          (* [column.column_type.lower()] raised AttributeError *)
          Ok {| _value_by_name :=
                  dict_set (KColumn column) (VJson v) (_value_by_name self);
                _value_by_index := _value_by_index self ++ [VJson v];
                _hidden_values := hide (VJson v);
                _seventh_digit := _seventh_digit self |}
      end
  end.

(** [KustoResultRow(columns, row)] *)
Definition KustoResultRow_init (columns : list KustoResultColumn) (row : json)
  : M KustoResultRow :=
  cells <- py_iter row ;;
  foldM (decode_cell columns) (enumerate cells) empty_row.

(** [row.columns_count] *)
Definition row_columns_count (self : KustoResultRow) : nat :=
  length (_value_by_name self).

(** [len(row)] *)
Definition row_len (self : KustoResultRow) : nat := row_columns_count self.

(** [l[z]] on a Python list, negative positions counted from the end. *)
Definition list_item {A} (l : list A) (z : Z) : M A :=
  let n := Z.of_nat (length l) in
  let pos := if (z <? 0)%Z then (z + n)%Z else z in
  if (pos <? 0)%Z then Raise IndexError
  else match nth_error l (Z.to_nat pos) with
       | Some a => Ok a
       | None => Raise IndexError
       end.

(** [row[key]]: booleans are integers. *)
Definition row_getitem (self : KustoResultRow) (k : json) : M value :=
  match k with
  | JInt z => list_item (_value_by_index self) z
  | JBool b => list_item (_value_by_index self) (if b then 1%Z else 0%Z)
  | _ =>
      k' <- key_of k ;;
      match dict_get k' (_value_by_name self) with
      | Some v => Ok v
      | None => Raise KeyError
      end
  end.

(** [row.to_dict()] and [row.to_list()] *)
Definition row_to_dict (self : KustoResultRow) : pydict value :=
  _value_by_name self.

Definition row_to_list (self : KustoResultRow) : list value :=
  _value_by_index self.

(** [list(row)]: [__iter__] yields [self[i]] for [i] below [columns_count]. *)
Definition row_iter (self : KustoResultRow) : M (list value) :=
  mapM (fun i => list_item (_value_by_index self) (Z.of_nat i))
       (seq 0 (row_columns_count self)).

(** *** [KustoResultColumn] *)

(** [KustoResultColumn(json_column, ordinal)] *)
Definition KustoResultColumn_init (json_column : json) (ordianl : nat)
  : M KustoResultColumn :=
  name <- subscript_str json_column "ColumnName" ;;
  declared <- py_get json_column "ColumnType" ;;
  type <- (if truthy declared then Ok declared
           else subscript_str json_column "DataType") ;;
  Ok {| column_name := name; column_type := type; ordinal := ordianl |}.

(** *** [KustoResultTable] *)

Record KustoResultTable : Type := {
  table_name : json;
  table_id : json;
  table_kind : option WellKnownDataSet;
  columns : list KustoResultColumn;
  rows : list KustoResultRow
}.

(** Lines 189 to 192: everything before the rows are looked at. *)
Definition table_header (json_table : json)
  : M (json * json * option WellKnownDataSet * list KustoResultColumn) :=
  name <- py_get json_table "TableName" ;;
  id <- py_get json_table "TableId" ;;
  kind <- match json_table with
          | JDict d =>
              match assoc "TableKind" d with
              | Some k => m <- enum_by_name k ;; Ok (Some m)
              | None => Ok None
              end
          | _ => Raise TypeError
          end ;;
  cols <- subscript_str json_table "Columns" ;;
  cols <- py_iter cols ;;
  columns <- mapM (fun ic => KustoResultColumn_init (snd ic) (fst ic))
                  (enumerate cols) ;;
  Ok (name, id, kind, columns).

(** [row["OneApiErrors"][0]["error"]["@message"]] *)
Definition error_message (row : json) : M json :=
  api_errors <- subscript_str row "OneApiErrors" ;;
  entry <- subscript_nat api_errors 0 ;;
  error <- subscript_str entry "error" ;;
  subscript_str error "@message".

(** [KustoResultTable(json_table)] *)
Definition KustoResultTable_init (json_table : json) : M KustoResultTable :=
  '(name, id, kind, columns) <- table_header json_table ;;
  raw_rows <- subscript_str json_table "Rows" ;;
  raw_rows <- py_iter raw_rows ;;
  let errors := filter is_dict raw_rows in
  match errors with
  | first :: _ =>
      message <- error_message first ;;
      Raise (KustoServiceError message json_table)
  | [] =>
      rows <- mapM (KustoResultRow_init columns) raw_rows ;;
      Ok {| table_name := name; table_id := id; table_kind := kind;
            columns := columns; rows := rows |}
  end.

Definition rows_count (self : KustoResultTable) : nat := length (rows self).

Definition table_columns_count (self : KustoResultTable) : nat :=
  length (columns self).

(** What the slot ["kind"] of the mapping can hold. *)
Inductive kind_slot : Type :=
| KindNone
| KindMember (k : WellKnownDataSet)
| KindStr (s : string).

Record table_dict : Type := {
  d_name : json;
  d_kind : kind_slot;
  d_data : list (pydict value)
}.

(** [table.to_dict()] *)
Definition table_to_dict (self : KustoResultTable) : table_dict :=
  {| d_name := table_name self;
     d_kind := match table_kind self with
               | Some k => KindMember k
               | None => KindNone
               end;
     d_data := map row_to_dict (rows self) |}.

(** [x.value] on what the slot holds: only an enum member has it. *)
Definition slot_value (x : kind_slot) : M kind_slot :=
  match x with
  | KindMember k => Ok (KindStr (enum_value k))
  | _ => Raise AttributeError
  end.

(** [str(table)]; [json_dumps] is [json.dumps]. *)
Definition table_str (json_dumps : table_dict -> M string)
    (self : KustoResultTable) : M string :=
  let d := table_to_dict self in
  v <- slot_value (d_kind d) ;;
  json_dumps {| d_name := d_name d; d_kind := v; d_data := d_data d |}.

(** The truth value of a descriptor: the class defines neither [__bool__]
    nor [__len__], so every instance is true. *)
Definition column_truthy (c : KustoResultColumn) : bool := true.

(** [bool(table)]: [any(self.columns)] *)
Definition table_bool (self : KustoResultTable) : bool :=
  existsb column_truthy (columns self).

End Models.

Arguments KustoResultRow_init {H} columns row.
Arguments KustoResultTable_init {H} json_table.

(** ** A host to run the decoder on

    A small executable stand-in for the imported parts: a timestamp is kept
    as its ISO text, a decimal as its text, a duration is read from
    [[-][d.]hh:mm:ss[.ffffff]], and a float is an exact decimal fraction
    [m / 10^e] rather than a binary64 number. *)
Module Sample.

Fixpoint parse_digits (s : string) (acc : Z) : option Z :=
  match s with
  | EmptyString => Some acc
  | String c s' =>
      if PyStr.isdigit c
      then parse_digits s' (10 * acc + PyStr.digit_value c)%Z
      else None
  end.

Definition parse_nat (s : string) : option Z :=
  match s with
  | EmptyString => None
  | _ => parse_digits s 0%Z
  end.

Definition dec : Type := (Z * nat)%type.

Definition strip_minus (s : string) : bool * string :=
  match s with
  | String "-" s' => (true, s')
  | _ => (false, s)
  end.

Definition dec_of_str (s : string) : result (pyexn dec) dec :=
  let '(neg, body) := strip_minus s in
  let sign (z : Z) := if neg then (- z)%Z else z in
  match PyStr.split "." body with
  | [whole] =>
      match parse_nat whole with
      | Some w => Ok (sign w, 0%nat)
      | None => Raise ValueError
      end
  | [whole; frac] =>
      match parse_nat (whole ++ frac)%string with
      | Some m => Ok (sign m, String.length frac)
      | None => Raise ValueError
      end
  | _ => Raise ValueError
  end.

Definition dec_int (x : dec) : Z := Z.quot (fst x) (10 ^ Z.of_nat (snd x)).

(** The first six fractional digits of a seconds field, as microseconds. *)
Definition micros_of_frac (frac : string) : option Z :=
  parse_nat (substring 0 6 (frac ++ "000000")%string).

Definition seconds_micros (field : string) : option Z :=
  match PyStr.split "." field with
  | [ss] => option_map (fun n => (n * 1000000)%Z) (parse_nat ss)
  | [ss; frac] =>
      match parse_nat ss, micros_of_frac frac with
      | Some n, Some us => Some (n * 1000000 + us)%Z
      | _, _ => None
      end
  | _ => None
  end.

Definition days_hours (field : string) : option Z :=
  match PyStr.split "." field with
  | [hh] => parse_nat hh
  | [d; hh] =>
      match parse_nat d, parse_nat hh with
      | Some d, Some h => Some (d * 24 + h)%Z
      | _, _ => None
      end
  | _ => None
  end.

Definition timedelta_of_str (s : string) : result (pyexn dec) timedelta :=
  let '(neg, body) := strip_minus s in
  match PyStr.split ":" body with
  | [dh; mm; ss] =>
      match days_hours dh, parse_nat mm, seconds_micros ss with
      | Some h, Some m, Some us =>
          let total := ((h * 60 + m) * 60000000 + us)%Z in
          Ok (if neg then (- total)%Z else total)
      | _, _, _ => Raise ValueError
      end
  | _ => Raise ValueError
  end.

Definition dec_scalar_eqb (a b : json dec) : bool :=
  let as_dec (x : json dec) : option dec :=
    match x with
    | JBool b => Some (if b then 1%Z else 0%Z, 0%nat)
    | JInt z => Some (z, 0%nat)
    | JFloat f => Some f
    | _ => None
    end in
  match a, b with
  | JNull, JNull => true
  | _, _ =>
      match as_dec a, as_dec b with
      | Some (m, e), Some (m', e') =>
          Z.eqb (m * 10 ^ Z.of_nat e') (m' * 10 ^ Z.of_nat e)
      | _, _ => false
      end
  end.

Definition host (keep : bool) : Host := {|
  float := dec;
  datetime := string;
  decimal := string;
  keep_high_precision_values := keep;
  to_datetime := fun v =>
    match v with
    | JStr s => if String.eqb s "" then Raise ValueError else Ok s
    | _ => Raise TypeError
    end;
  to_timedelta := fun v =>
    match v with
    | JStr s => timedelta_of_str s
    | JInt ticks => Ok (Z.quot ticks 10)
    | _ => Raise TypeError
    end;
  Decimal := fun v =>
    match v with
    | JStr s => Ok s
    | JInt z => Ok (PyStr.of_Z z)
    | _ => Raise TypeError
    end;
  total_seconds := fun td => (td, 6%nat);
  int_of_float := dec_int;
  float_of_str := dec_of_str;
  float_truthy := fun x => negb (Z.eqb (fst x) 0);
  scalar_eqb := dec_scalar_eqb
|}.

(** A column descriptor as [KustoResultTable] builds it from
    [{"ColumnName": name, "ColumnType": type}]. *)
Definition column (keep : bool) (name type : string) (i : nat)
  : @KustoResultColumn (host keep) :=
  {| column_name := JStr name; column_type := JStr type; ordinal := i |}.

(** [json.dumps], reduced to the kind it is handed. *)
Definition dumps_kind (keep : bool) (d : @table_dict (host keep))
  : result (pyexn dec) string :=
  match d_kind d with
  | KindStr s => Ok s
  | KindNone => Ok "null"
  | KindMember _ => Raise TypeError
  end.

End Sample.

(** ** Rows that need no converter

    A cell is plain when its column has a string name and a string type
    and the decoder has nothing to convert: the type has no converter, or
    the type is temporal and the raw value is null. *)
Section PlainRows.

Context {H : Host}.

Definition is_null (v : json float) : bool :=
  match v with JNull => true | _ => false end.

Definition plain_cell (columns : list KustoResultColumn)
    (cell : nat * json float) : bool :=
  match nth_error columns (fst cell) with
  | Some column =>
      match column_type column, column_name column with
      | JStr declared, JStr _ =>
          let column_type := PyStr.lower declared in
          if String.eqb column_type "datetime"
             || String.eqb column_type "timespan"
          then is_null (snd cell)
          else match convertion_funcs column_type with
               | Some _ => false
               | None => true
               end
      | _, _ => false
      end
  | None => false
  end.

Definition plain_row (columns : list KustoResultColumn)
    (cells : list (json float)) : bool :=
  forallb (plain_cell columns) (enumerate cells).

End PlainRows.

(** * Properties *)

(** ** The primitives on concrete inputs *)

Example split_seconds :
  PyStr.split ":" "2021-01-01T00:00:00.1234567"
  = ["2021-01-01T00"; "00"; "00.1234567"].
Proof. reflexivity. Qed.

Example split_empty : PyStr.split ":" "" = [""].
Proof. reflexivity. Qed.

Example drop_last_two : PyStr.drop_last 2 "0.1234567Z" = "0.123456".
Proof. reflexivity. Qed.

Example of_Z_neg : PyStr.of_Z (-1205) = "-1205".
Proof. reflexivity. Qed.

Example sample_timespan :
  Sample.timedelta_of_str "-1.02:03:04.5" = Ok (-93784500000)%Z.
Proof. reflexivity. Qed.

Example sample_float : Sample.dec_of_str "-12.5" = Ok ((-125)%Z, 1%nat).
Proof. reflexivity. Qed.

(** ** Facts about the string primitives *)

Section StringFacts.

Lemma append_empty_r (s : string) : (s ++ "")%string = s.
Proof. induction s as [| c s IH]; simpl; [| rewrite IH]; reflexivity. Qed.

Lemma append_assoc (a b c : string) :
  ((a ++ b) ++ c)%string = (a ++ b ++ c)%string.
Proof. induction a as [| x a IH]; simpl; [| rewrite IH]; reflexivity. Qed.

Lemma length_append (a b : string) :
  String.length (a ++ b) = (String.length a + String.length b)%nat.
Proof. induction a as [| x a IH]; simpl; [| rewrite IH]; reflexivity. Qed.

Lemma no_char_append (c : ascii) (a b : string) :
  PyStr.no_char c (a ++ b) = PyStr.no_char c a && PyStr.no_char c b.
Proof.
  induction a as [| x a IH]; simpl; [reflexivity |].
  rewrite IH, andb_assoc. reflexivity.
Qed.

(** A digit is neither a separator nor a letter. *)
Lemma isdigit_not_sep (c sep : ascii) :
  PyStr.isdigit c = true -> PyStr.isdigit sep = false -> Ascii.eqb c sep = false.
Proof.
  intros Hc Hsep. destruct (Ascii.eqb_spec c sep) as [-> |]; [| reflexivity].
  rewrite Hc in Hsep. discriminate Hsep.
Qed.

Lemma isdigit_not_alpha (c : ascii) :
  PyStr.isdigit c = true -> PyStr.isalpha c = false.
Proof.
  unfold PyStr.isdigit, PyStr.isalpha, PyStr.isupper, PyStr.islower.
  intros Hd. apply andb_true_iff in Hd as [_ Hhi]. apply Nat.leb_le in Hhi.
  apply orb_false_iff. split; apply andb_false_iff; left;
    apply Nat.leb_gt; lia.
Qed.

Lemma all_digits_no_sep (sep : ascii) (s : string) :
  PyStr.isdigit sep = false ->
  PyStr.all_digits s = true -> PyStr.no_char sep s = true.
Proof.
  intros Hsep. induction s as [| x s IH]; simpl; [reflexivity |].
  intros Hd. apply andb_true_iff in Hd as [Hx Hs].
  rewrite (@isdigit_not_sep x sep Hx Hsep), (IH Hs). reflexivity.
Qed.

(** Splitting a text without separator, and a text at its first
    separator. *)
Lemma split_without (sep : ascii) (s : string) :
  PyStr.no_char sep s = true -> PyStr.split sep s = [s].
Proof.
  induction s as [| x s IH]; simpl; [reflexivity |].
  intros Hno. apply andb_true_iff in Hno as [Hx Hs].
  apply negb_true_iff in Hx. rewrite Hx, (IH Hs). reflexivity.
Qed.

Lemma split_at_first (sep : ascii) (a b : string) :
  PyStr.no_char sep a = true ->
  PyStr.split sep (a ++ String sep b) = a :: PyStr.split sep b.
Proof.
  induction a as [| x a IH]; simpl.
  - intros _. rewrite Ascii.eqb_refl. reflexivity.
  - intros Hno. apply andb_true_iff in Hno as [Hx Ha].
    apply negb_true_iff in Hx. rewrite Hx, (IH Ha). reflexivity.
Qed.

(** The last character, and the text before it. *)
Lemma last_append_char (a : string) (c : ascii) :
  PyStr.last (a ++ String c "") = Some c.
Proof.
  induction a as [| x a IH]; simpl; [reflexivity |].
  destruct a as [| y a]; simpl in *; [reflexivity | exact IH].
Qed.

Lemma substring_prefix (a b : string) :
  substring 0 (String.length a) (a ++ b) = a.
Proof.
  induction a as [| x a IH]; simpl.
  - destruct b; reflexivity.
  - rewrite IH. reflexivity.
Qed.

Lemma drop_last_append_char (a : string) (c : ascii) :
  PyStr.drop_last 1 (a ++ String c "") = a.
Proof.
  unfold PyStr.drop_last. rewrite length_append. simpl.
  replace (String.length a + 1 - 1)%nat with (String.length a) by lia.
  apply substring_prefix.
Qed.

Lemma index_after (a b : string) (c : ascii) :
  PyStr.index (String.length a) (a ++ String c b) = Some c.
Proof.
  unfold PyStr.index. induction a as [| x a IH]; simpl; [reflexivity | exact IH].
Qed.

End StringFacts.

(** ** Reasoning about the error monad *)

(** Inverting a [bind] that returned. *)
Lemma bind_ok {E A B} (c : result E A) (k : A -> result E B) (b : B) :
  bind c k = Ok b -> exists a, c = Ok a /\ k a = Ok b.
Proof.
  destruct c as [a | e]; simpl; intros Hb.
  - exists a; split; [reflexivity | exact Hb].
  - discriminate Hb.
Qed.

Tactic Notation "bind_inv" hyp(E) "as" ident(a) ident(Ea) :=
  apply bind_ok in E; destruct E as (a & Ea & E).

(** ** Tables *)

Section TableProperties.

Context {H : Host}.

Local Notation json := (json float).
Local Notation M := (result (pyexn float)).

(** What a constructed table is made of. *)
Lemma table_init_inv (json_table : json) (t : KustoResultTable) :
  KustoResultTable_init json_table = Ok t ->
  exists name id kind cols raw raw_rows rs,
    table_header json_table = Ok (name, id, kind, cols)
    /\ subscript_str json_table "Rows" = Ok raw
    /\ py_iter raw = Ok raw_rows
    /\ filter is_dict raw_rows = []
    /\ mapM (KustoResultRow_init cols) raw_rows = Ok rs
    /\ t = {| table_name := name; table_id := id; table_kind := kind;
              columns := cols; rows := rs |}.
Proof.
  unfold KustoResultTable_init. intros E.
  bind_inv E as header Eheader. destruct header as [[[name id] kind] cols].
  bind_inv E as raw Eraw. bind_inv E as raw_rows Eiter.
  destruct (filter is_dict raw_rows) as [| first rest] eqn:Efilter.
  - bind_inv E as rs Erows. injection E as <-.
    exists name, id, kind, cols, raw, raw_rows, rs. repeat split; assumption.
  - destruct (error_message first); discriminate E.
Qed.

(** The kind a header holds is the member named by ["TableKind"], and
    there is none when the key is absent. *)
Lemma table_header_kind (d : list (string * json)) name id kind cols :
  table_header (JDict d) = Ok (name, id, kind, cols) ->
  match assoc "TableKind" d with
  | Some k => exists m, enum_by_name k = Ok m /\ kind = Some m
  | None => kind = None
  end.
Proof.
  unfold table_header. intros E.
  bind_inv E as name' Ename. bind_inv E as id' Eid.
  bind_inv E as kind' Ekind.
  bind_inv E as cols0 Ecols0. bind_inv E as cols1 Ecols1.
  bind_inv E as cols' Ecols. injection E as _ _ <- _.
  destruct (assoc "TableKind" d) as [k |].
  - bind_inv Ekind as m Em. injection Ekind as <-.
    exists m. split; [assumption | reflexivity].
  - injection Ekind as <-. reflexivity.
Qed.

Lemma enum_by_name_value (s : string) (m : WellKnownDataSet) :
  enum_by_name (JStr s : json) = Ok m -> enum_value m = s.
Proof.
  unfold enum_by_name.
  destruct (String.eqb_spec s "PrimaryResult") as [-> |];
    [intros [= <-]; reflexivity |].
  destruct (String.eqb_spec s "QueryCompletionInformation") as [-> |];
    [intros [= <-]; reflexivity |].
  destruct (String.eqb_spec s "TableOfContents") as [-> |];
    [intros [= <-]; reflexivity |].
  destruct (String.eqb_spec s "QueryProperties") as [-> |];
    [intros [= <-]; reflexivity |].
  discriminate.
Qed.

(** The nested message of an error object that has one:
    [row["OneApiErrors"][0]["error"]["@message"]]. *)
Lemma error_message_path
    (fields : list (string * json)) (others : list json)
    (entry error : list (string * json)) (message : json) :
  assoc "OneApiErrors" fields = Some (JList (JDict entry :: others)) ->
  assoc "error" entry = Some (JDict error) ->
  assoc "@message" error = Some message ->
  error_message (JDict fields) = Ok message.
Proof.
  intros Herrors Herror Hmessage. unfold error_message. simpl.
  rewrite Herrors. simpl. rewrite Herror. simpl. rewrite Hmessage.
  reflexivity.
Qed.

(** The first dict among the rows decides: its message, when it has one,
    is raised with the document. *)
Lemma first_error_raises
    (json_table : json) header (before after : list json)
    (first message : json) :
  table_header json_table = Ok header ->
  subscript_str json_table "Rows" = Ok (JList (before ++ first :: after)) ->
  forallb (fun row => negb (is_dict row)) before = true ->
  is_dict first = true ->
  error_message first = Ok message ->
  KustoResultTable_init json_table
  = Raise (KustoServiceError message json_table).
Proof.
  intros Hheader Hrows Hbefore Hfirst Hmessage.
  unfold KustoResultTable_init.
  rewrite Hheader. destruct header as [[[name id] kind] cols]. simpl.
  rewrite Hrows. simpl.
  assert (Hfilter : filter is_dict (before ++ first :: after)
                    = first :: filter is_dict after).
  { clear - Hbefore Hfirst. induction before as [| row before IH]; simpl.
    - rewrite Hfirst. reflexivity.
    - simpl in Hbefore. apply andb_true_iff in Hbefore as [Hrow Hbefore].
      apply negb_true_iff in Hrow. rewrite Hrow. exact (IH Hbefore). }
  rewrite Hfilter, Hmessage. reflexivity.
Qed.

(** C2, as the code has it: when the header of the document decodes and
    the first dict among the rows, at any position and whatever the rows
    before and after it are, holds a list under ["OneApiErrors"] whose
    first element holds a dict under ["error"] that holds [message] under
    ["@message"], the constructor raises the service error that carries
    this [message] and the whole document; no table is returned. *)
Theorem embedded_error_aborts_table
    (json_table : json) header (before after : list json)
    (fields : list (string * json)) (others : list json)
    (entry error : list (string * json)) (message : json) :
  table_header json_table = Ok header ->
  subscript_str json_table "Rows"
  = Ok (JList (before ++ JDict fields :: after)) ->
  forallb (fun row => negb (is_dict row)) before = true ->
  assoc "OneApiErrors" fields = Some (JList (JDict entry :: others)) ->
  assoc "error" entry = Some (JDict error) ->
  assoc "@message" error = Some message ->
  KustoResultTable_init json_table
  = Raise (KustoServiceError message json_table).
Proof.
  intros Hheader Hrows Hbefore Herrors Herror Hmessage.
  apply (@first_error_raises json_table header before after (JDict fields)
           message Hheader Hrows Hbefore eq_refl).
  exact (@error_message_path fields others entry error message
           Herrors Herror Hmessage).
Qed.

(** C6, as the code has it: the mapping of a table built from a document
    whose ["TableKind"] is the string [s] holds the enum member itself in
    its slot ["kind"]; the value of that member is [s], and it is the string
    rendering that puts this value in the slot before serialising. *)
Theorem to_dict_kind_member
    (d : list (string * json)) (s : string) (t : KustoResultTable) :
  assoc "TableKind" d = Some (JStr s) ->
  KustoResultTable_init (JDict d) = Ok t ->
  exists m,
    d_kind (table_to_dict t) = KindMember m
    /\ enum_value m = s
    /\ forall json_dumps,
         table_str json_dumps t
         = json_dumps {| d_name := table_name t; d_kind := KindStr s;
                         d_data := map row_to_dict (rows t) |}.
Proof.
  intros Hkind Hinit.
  apply table_init_inv in Hinit
    as (name & id & kind & cols & raw & raw_rows & rs & Hh & _ & _ & _ & _ & ->).
  apply table_header_kind in Hh. rewrite Hkind in Hh.
  destruct Hh as (m & Hm & ->).
  apply enum_by_name_value in Hm.
  exists m. split; [reflexivity | split; [assumption |]].
  intros json_dumps. unfold table_str. simpl. rewrite Hm. reflexivity.
Qed.

(** C9, at the tables the constructor builds without a kind: the string
    rendering of a table whose document has no ["TableKind"] reads [.value]
    on [None] and raises AttributeError before anything is serialised. *)
Theorem table_str_without_kind
    (json_dumps : table_dict -> M string)
    (d : list (string * json)) (t : KustoResultTable) :
  assoc "TableKind" d = None ->
  KustoResultTable_init (JDict d) = Ok t ->
  table_str json_dumps t = Raise AttributeError.
Proof.
  intros Hkind Hinit.
  apply table_init_inv in Hinit
    as (name & id & kind & cols & raw & raw_rows & rs & Hh & _ & _ & _ & _ & ->).
  apply table_header_kind in Hh. rewrite Hkind in Hh. subst kind.
  reflexivity.
Qed.

(** C10: a table is true exactly when it has at least one column, and
    replacing its rows by any others leaves its truth value as it is. *)
Theorem table_bool_counts_columns (t : KustoResultTable) :
  (table_bool t = true <-> (0 < table_columns_count t)%nat)
  /\ (forall rs,
        table_bool {| table_name := table_name t; table_id := table_id t;
                      table_kind := table_kind t; columns := columns t;
                      rows := rs |}
        = table_bool t).
Proof.
  unfold table_bool, table_columns_count. split.
  - destruct (columns t) as [| c cs]; simpl.
    + split; [discriminate | lia].
    + split; [lia | reflexivity].
  - reflexivity.
Qed.

End TableProperties.

(** ** Columns and cells *)

Section CellProperties.

Context {H : Host}.

Local Notation json := (json float).
Local Notation M := (result (pyexn float)).

(** A cell of a column whose declared type is not a string: the raw value
    goes to the position-indexed list and to the side values, and the
    name-indexed dict receives it under the descriptor, not under the
    name. *)
Lemma decode_cell_untyped
    (columns : list KustoResultColumn) (self : KustoResultRow)
    (i : nat) (v : json) (column : KustoResultColumn) :
  nth_error columns i = Some column ->
  (forall s, column_type column <> JStr s) ->
  decode_cell columns self (i, v)
  = Ok {| _value_by_name :=
            dict_set (KColumn column) (VJson v) (_value_by_name self);
          _value_by_index := _value_by_index self ++ [VJson v];
          _hidden_values :=
            if keep_high_precision_values
            then _hidden_values self ++ [VJson v] else _hidden_values self;
          _seventh_digit := _seventh_digit self |}.
Proof.
  intros Hcol Htype. unfold decode_cell. rewrite Hcol.
  destruct (column_type column) as [| b | z | f | s | l | d] eqn:Et;
    try reflexivity.
  exfalso. exact (Htype s eq_refl).
Qed.

(** C5, as the code has it: a column whose metadata has neither
    ["ColumnType"] nor ["DataType"] is not constructed, the lookup of
    ["DataType"] raises KeyError; the pass-through without an exception is
    what a column gets whose ["DataType"] is present and null. *)
Theorem column_type_keys (d : list (string * json)) (n : nat) :
  assoc "ColumnType" d = None ->
  (assoc "DataType" d = None ->
   KustoResultColumn_init (JDict d) n = Raise KeyError)
  /\ (forall name,
        assoc "ColumnName" d = Some name ->
        assoc "DataType" d = Some JNull ->
        exists column,
          KustoResultColumn_init (JDict d) n = Ok column
          /\ forall columns self i v,
               nth_error columns i = Some column ->
               exists self',
                 decode_cell columns self (i, v) = Ok self'
                 /\ _value_by_index self' = _value_by_index self ++ [VJson v]).
Proof.
  intros Htype. split.
  - intros Hdata. unfold KustoResultColumn_init. simpl.
    destruct (assoc "ColumnName" d); simpl; [| reflexivity].
    rewrite Htype. simpl. rewrite Hdata. reflexivity.
  - intros name Hname Hdata.
    exists {| column_name := name; column_type := JNull; ordinal := n |}.
    split.
    + unfold KustoResultColumn_init. simpl.
      rewrite Hname. simpl. rewrite Htype. simpl. rewrite Hdata. reflexivity.
    + intros columns self i v Hcol.
      eexists. split.
      * apply decode_cell_untyped; [exact Hcol | discriminate].
      * reflexivity.
Qed.

End CellProperties.

(** ** Temporal cells *)

Section TemporalProperties.

Context {H : Host}.

Local Notation json := (json float).
Local Notation exn := (pyexn float).
Local Notation M := (result exn).

Lemma timedelta_is_abs_sign (td : timedelta) :
  timedelta_is_abs td = negb (td <? 0)%Z.
Proof.
  unfold timedelta_is_abs.
  destruct (Z.ltb_spec td 0) as [Hneg | Hpos]; simpl.
  - apply Z.eqb_neq. lia.
  - apply Z.eqb_eq. lia.
Qed.

Lemma digit_value_range (c : ascii) :
  PyStr.isdigit c = true -> (0 <= PyStr.digit_value c <= 9)%Z.
Proof.
  unfold PyStr.isdigit, PyStr.digit_value. intros Hd.
  apply andb_true_iff in Hd as [Hlo Hhi].
  apply Nat.leb_le in Hlo. apply Nat.leb_le in Hhi. lia.
Qed.

Lemma dict_get_set_name {V} (n : string) (v : V) (d : pydict V) :
  dict_get (KName n) (dict_set (KName n) v d) = Some v.
Proof.
  induction d as [| [k w] d IH]; simpl.
  - rewrite String.eqb_refl. reflexivity.
  - destruct (key_eqb k (KName n)) eqn:Ek; simpl; rewrite Ek; auto.
Qed.

(** The steps of the [try] that split and index raise nothing but
    IndexError and AttributeError. *)
Lemma fractions_of_raises (v : json) (e : exn) :
  fractions_of v = Raise e -> e = IndexError \/ e = AttributeError.
Proof.
  unfold fractions_of. destruct v as [| b | z | f | s | l | d];
    try (intros [= <-]; right; reflexivity).
  destruct (nth_error (PyStr.split ":" s) 2) as [seconds_part |].
  - destruct (nth_error (PyStr.split "." seconds_part) 1).
    + discriminate.
    + intros [= <-]. left. reflexivity.
  - intros [= <-]. left. reflexivity.
Qed.

Lemma seventh_of_raises (frac : string) (e : exn) :
  seventh_of frac = Raise e -> e = IndexError.
Proof.
  unfold seventh_of. destruct (PyStr.index 6 frac).
  - discriminate.
  - intros [= <-]. reflexivity.
Qed.

(** C7: when splitting the raw value on [":"] and ["."] or indexing the
    seventh fractional character raises, the exception is an IndexError or
    an AttributeError, the handler catches it, and the cell is decoded from
    the conversion of the whole raw value: its outcome is the outcome of
    the normal converter, with no digit recorded; for a [datetime] cell
    whose raw value converts, the cell is decoded and the side value is the
    raw value. *)
Theorem extraction_failure_falls_back
    (column_type : string) (column : KustoResultColumn) (v : json)
    (suffix : string) (digits : pydict Z) (e : exn) :
  trailing_letter v = Ok suffix ->
  (fractions_of v = Raise e
   \/ exists frac, fractions_of v = Ok frac /\ seventh_of frac = Raise e) ->
  (e = IndexError \/ e = AttributeError)
  /\ (exists kwargs,
        try_precision column_type column v suffix digits = (kwargs, Raise e)
        /\ seventh_char kwargs = None /\ lookback kwargs = None
        /\ except_fallback column_type v digits (Raise e)
           = (typed_value <- convert column_type v ;; Ok (typed_value, digits))
        /\ decode_temporal column_type column v digits
           = (typed_value <- convert column_type v ;;
              if keep_high_precision_values then
                hidden <- _get_precise_repr column_type v typed_value kwargs ;;
                Ok (typed_value, Some (VJson hidden), digits)
              else Ok (typed_value, None, digits)))
  /\ (forall typed_value,
        column_type = "datetime" ->
        convert column_type v = Ok typed_value ->
        decode_temporal column_type column v digits
        = Ok (typed_value,
              if keep_high_precision_values then Some (VJson v) else None,
              digits)).
Proof.
  intros Hsuffix Hfail.
  assert (Hclass : e = IndexError \/ e = AttributeError).
  { destruct Hfail as [Hf | (frac & _ & Hs)].
    - exact (fractions_of_raises _ Hf).
    - left. exact (seventh_of_raises _ Hs). }
  assert (Hcaught : caught e = true) by (destruct Hclass; subst e; reflexivity).
  assert (Htry : exists kwargs,
             try_precision column_type column v suffix digits = (kwargs, Raise e)
             /\ seventh_char kwargs = None /\ lookback kwargs = None).
  { unfold try_precision. destruct Hfail as [Hf | (frac & Hf & Hs)].
    - rewrite Hf. eexists. repeat split.
    - rewrite Hf, Hs. eexists. repeat split. }
  destruct Htry as (kwargs & Htry & Hchar & Hlook).
  assert (Hdecode :
            decode_temporal column_type column v digits
            = (typed_value <- convert column_type v ;;
               if keep_high_precision_values then
                 hidden <- _get_precise_repr column_type v typed_value kwargs ;;
                 Ok (typed_value, Some (VJson hidden), digits)
               else Ok (typed_value, None, digits))).
  { unfold decode_temporal. rewrite Hsuffix. simpl. rewrite Htry.
    unfold except_fallback. rewrite Hcaught.
    destruct (convert column_type v); reflexivity. }
  split; [exact Hclass |]. split.
  - exists kwargs. repeat split; try assumption.
    unfold except_fallback. rewrite Hcaught. reflexivity.
  - intros typed_value -> Hconv. rewrite Hdecode, Hconv. simpl.
    unfold _get_precise_repr. simpl. rewrite Hchar.
    destruct keep_high_precision_values; reflexivity.
Qed.

(** The [try] when the seventh character is a digit. *)
Lemma try_precision_digit
    (column_type : string) (column : KustoResultColumn) (s suffix : string)
    (digits : pydict Z) (frac : string) (c : ascii) :
  fractions_of (JStr s) = Ok frac ->
  seventh_of frac = Ok c ->
  PyStr.isdigit c = true ->
  try_precision column_type column (JStr s) suffix digits
  = ({| seconds_fractions_part := Some frac; last := suffix;
        lookback := Some (lookback_of suffix); seventh_char := Some c |},
     typed_value <- convert column_type (JStr (truncated_text s suffix)) ;;
     if Z.eqb (PyStr.digit_value c) 0 then Ok (typed_value, digits)
     else
       t <- signed_tick column_type typed_value (PyStr.digit_value c) ;;
       k <- key_of (column_name column) ;;
       Ok (typed_value, dict_set k t digits)).
Proof.
  intros Hfrac Hseventh Hdigit. unfold try_precision.
  rewrite Hfrac, Hseventh, Hdigit. reflexivity.
Qed.

(** A decoded cell of a temporal column with a non-null value went through
    [decode_temporal]. *)
Lemma decode_cell_temporal
    (columns : list KustoResultColumn) (self self' : KustoResultRow)
    (i : nat) (v : json) (column : KustoResultColumn) (declared : string) :
  nth_error columns i = Some column ->
  column_type column = JStr declared ->
  PyStr.lower declared = "datetime" \/ PyStr.lower declared = "timespan" ->
  v <> JNull ->
  decode_cell columns self (i, v) = Ok self' ->
  exists typed_value hidden digits k,
    decode_temporal (PyStr.lower declared) column v (_seventh_digit self)
    = Ok (typed_value, hidden, digits)
    /\ key_of (column_name column) = Ok k
    /\ self' = {| _value_by_name :=
                    dict_set k typed_value (_value_by_name self);
                  _value_by_index := _value_by_index self ++ [typed_value];
                  _hidden_values :=
                    match hidden with
                    | Some h => _hidden_values self ++ [h]
                    | None => _hidden_values self
                    end;
                  _seventh_digit := digits |}.
Proof.
  intros Hcol Htype Htemporal Hnull Hcell.
  unfold decode_cell in Hcell. rewrite Hcol, Htype in Hcell.
  assert (Hdispatch : String.eqb (PyStr.lower declared) "datetime"
                      || String.eqb (PyStr.lower declared) "timespan" = true).
  { destruct Htemporal as [-> | ->]; reflexivity. }
  rewrite Hdispatch in Hcell.
  bind_inv Hcell as triple Etriple. destruct triple as [[typed_value hidden] digits].
  bind_inv Hcell as k Ek. injection Hcell as <-.
  exists typed_value, hidden, digits, k.
  split; [| split; [exact Ek | reflexivity]].
  destruct v; try exact Etriple. contradiction Hnull. reflexivity.
Qed.

(** What a decoded temporal cell records, in terms of the fields the
    decoder found: the tick of the seventh character when it is not zero,
    negated for a [timespan] whose truncated duration is negative. *)
Lemma seventh_digit_cell
    (columns : list KustoResultColumn) (self self' : KustoResultRow)
    (i : nat) (column : KustoResultColumn) (declared name s frac : string)
    (c : ascii) (suffix : string) (typed : value) :
  nth_error columns i = Some column ->
  column_type column = JStr declared ->
  column_name column = JStr name ->
  PyStr.lower declared = "datetime" \/ PyStr.lower declared = "timespan" ->
  fractions_of (JStr s) = Ok frac ->
  seventh_of frac = Ok c ->
  PyStr.isdigit c = true ->
  trailing_letter (JStr s) = Ok suffix ->
  convert (PyStr.lower declared) (JStr (truncated_text s suffix)) = Ok typed ->
  decode_cell columns self (i, JStr s) = Ok self' ->
  let tick := PyStr.digit_value c in
  (tick = 0%Z -> _seventh_digit self' = _seventh_digit self)
  /\ (tick <> 0%Z ->
      exists stored,
        _seventh_digit self'
        = dict_set (KName name) stored (_seventh_digit self)
        /\ dict_get (KName name) (_seventh_digit self') = Some stored
        /\ (-9 <= stored <= 9)%Z /\ stored <> 0%Z
        /\ (PyStr.lower declared = "datetime" -> stored = tick)
        /\ (PyStr.lower declared = "timespan" ->
            exists td,
              typed = VTimedelta td
              /\ stored = if (td <? 0)%Z then (- tick)%Z else tick)).
Proof.
  intros Hcol Htype Hname Htemporal Hfrac Hseventh Hdigit Hsuffix Hconv Hcell tick.
  pose proof (digit_value_range c Hdigit) as Hrange. fold tick in Hrange.
  assert (Hvalue : JStr s <> (JNull : json)) by discriminate.
  destruct (@decode_cell_temporal columns self self' i (JStr s) column
              declared Hcol Htype Htemporal Hvalue Hcell) as (typed_value & hidden & digits & k & Hdec & _ & ->). simpl.
  unfold decode_temporal in Hdec. rewrite Hsuffix in Hdec. simpl in Hdec.
  rewrite try_precision_digit with (frac := frac) (c := c) in Hdec
    by assumption.
  rewrite Hconv in Hdec. simpl in Hdec. fold tick in Hdec.
  rewrite Hname in Hdec. simpl in Hdec.
  destruct (Z.eqb_spec tick 0) as [Hzero | Hnonzero].
  - (* no entry *)
    simpl in Hdec. split; [| intros Hne; contradiction].
    intros _.
    destruct keep_high_precision_values.
    + bind_inv Hdec as h Eh. injection Hdec as _ _ <-. reflexivity.
    + injection Hdec as _ _ <-. reflexivity.
  - split; [intros Hz; contradiction |]. intros _.
    destruct Htemporal as [Hdt | Hts].
    + (* datetime: the digit itself *)
      rewrite Hdt in Hdec. simpl in Hdec.
      exists tick.
      assert (Hdigits : digits = dict_set (KName name) tick (_seventh_digit self)).
      { destruct keep_high_precision_values.
        - bind_inv Hdec as h Eh. injection Hdec as _ _ <-. reflexivity.
        - injection Hdec as _ _ <-. reflexivity. }
      subst digits. split; [reflexivity |].
      split; [apply dict_get_set_name |].
      split; [lia |]. split; [assumption |].
      split; [reflexivity |].
      intros Hts. rewrite Hdt in Hts. discriminate Hts.
    + (* timespan: the digit with the sign of the truncated duration *)
      rewrite Hts in Hdec, Hconv.
      unfold convert in Hconv. simpl in Hconv.
      bind_inv Hconv as td Etd. injection Hconv as <-.
      simpl in Hdec. rewrite timedelta_is_abs_sign in Hdec.
      set (stored := if negb (td <? 0)%Z then tick else (- tick)%Z) in Hdec.
      exists stored.
      assert (Hdigits : digits
                        = dict_set (KName name) stored (_seventh_digit self)).
      { destruct keep_high_precision_values.
        - bind_inv Hdec as h Eh. injection Hdec as _ _ <-. reflexivity.
        - injection Hdec as _ _ <-. reflexivity. }
      subst digits. split; [reflexivity |].
      split; [apply dict_get_set_name |].
      assert (Hstored : stored = if (td <? 0)%Z then (- tick)%Z else tick).
      { unfold stored. destruct (td <? 0)%Z; reflexivity. }
      split; [rewrite Hstored; destruct (td <? 0)%Z; lia |].
      split; [rewrite Hstored; destruct (td <? 0)%Z; lia |].
      split.
      * intros Hdt. rewrite Hts in Hdt. discriminate Hdt.
      * intros _. exists td. split; [reflexivity | exact Hstored].
Qed.

(** A row of one [datetime] column whose raw text has a digit as seventh
    fractional character and no trailing letter. *)
Lemma datetime_digit_row
    (declared name s frac : string) (c : ascii) (d : datetime) :
  PyStr.lower declared = "datetime" ->
  fractions_of (JStr s) = Ok frac ->
  seventh_of frac = Ok c ->
  PyStr.isdigit c = true ->
  trailing_letter (JStr s) = Ok "" ->
  to_datetime (JStr (PyStr.drop_last 1 s)) = Ok d ->
  KustoResultRow_init
    [{| column_name := JStr name; column_type := JStr declared;
        ordinal := 0 |}]
    (JList [JStr s])
  = Ok {| _value_by_name := [(KName name, VDatetime d)];
          _value_by_index := [VDatetime d];
          _hidden_values :=
            if keep_high_precision_values
            then [VJson (JStr (PyStr.drop_last 1 s
                               ++ PyStr.of_char c ++ "00")%string)]
            else [];
          _seventh_digit :=
            if Z.eqb (PyStr.digit_value c) 0 then []
            else [(KName name, PyStr.digit_value c)] |}.
Proof.
  intros Hdt Hfrac Hseventh Hdigit Hsuffix Hconv.
  unfold KustoResultRow_init. simpl.
  rewrite Hdt. simpl.
  unfold decode_temporal. rewrite Hsuffix. simpl.
  rewrite try_precision_digit with (frac := frac) (c := c) by assumption.
  unfold truncated_text, lookback_of. simpl.
  rewrite append_empty_r. unfold convert. simpl. rewrite Hconv. simpl.
  unfold _get_precise_repr. simpl. rewrite Hdigit.
  destruct (Z.eqb (PyStr.digit_value c) 0); simpl;
    destruct keep_high_precision_values; reflexivity.
Qed.

(** The fields the decoder finds in [date:mm:ss.ffffffc]. *)
Lemma seven_digit_fields (date mm ss six : string) (c : ascii) :
  PyStr.no_char ":" date = true ->
  PyStr.no_char ":" mm = true ->
  PyStr.all_digits ss = true ->
  PyStr.all_digits six = true ->
  String.length six = 6%nat ->
  PyStr.isdigit c = true ->
  let truncated := (date ++ ":" ++ mm ++ ":" ++ ss ++ "." ++ six)%string in
  let raw := (truncated ++ String c "")%string in
  fractions_of (JStr raw : json) = Ok (six ++ String c "")%string
  /\ seventh_of (six ++ String c "") = Ok c
  /\ trailing_letter (JStr raw : json) = Ok ""
  /\ PyStr.drop_last 1 raw = truncated.
Proof.
  intros Hdate Hmm Hss Hsix Hlen Hc truncated raw.
  assert (Hcolon : PyStr.isdigit ":" = false) by reflexivity.
  assert (Hdot : PyStr.isdigit "." = false) by reflexivity.
  assert (Htail : PyStr.all_digits (six ++ String c "") = true).
  { clear - Hsix Hc. induction six as [| x six IH]; simpl in *.
    - rewrite Hc. reflexivity.
    - apply andb_true_iff in Hsix as [Hx Hsix]. rewrite Hx. exact (IH Hsix). }
  assert (Hraw : raw = (date ++ String ":" (mm ++ String ":"
                          (ss ++ String "." (six ++ String c ""))))%string).
  { unfold raw, truncated. repeat rewrite append_assoc. reflexivity. }
  assert (Hss_colon : PyStr.no_char ":" ss = true)
    by (apply all_digits_no_sep; assumption).
  assert (Hss_dot : PyStr.no_char "." ss = true)
    by (apply all_digits_no_sep; assumption).
  assert (Htail_colon : PyStr.no_char ":" (six ++ String c "") = true)
    by (apply all_digits_no_sep; assumption).
  assert (Htail_dot : PyStr.no_char "." (six ++ String c "") = true)
    by (apply all_digits_no_sep; assumption).
  repeat split.
  - unfold fractions_of. rewrite Hraw.
    rewrite split_at_first by exact Hdate.
    rewrite split_at_first by exact Hmm.
    rewrite split_without.
    + simpl. rewrite split_at_first by exact Hss_dot.
      rewrite split_without by exact Htail_dot. reflexivity.
    + rewrite no_char_append. simpl.
      rewrite Hss_colon, Htail_colon. reflexivity.
  - unfold seventh_of. rewrite <- Hlen, index_after. reflexivity.
  - unfold trailing_letter, raw. rewrite last_append_char.
    rewrite (isdigit_not_alpha _ Hc). reflexivity.
  - unfold raw. apply drop_last_append_char.
Qed.

(** C1, as the code has it: a row of one [datetime] column whose raw text
    [date:mm:ss.ffffffc] has exactly seven fractional digits and no
    trailing letter is decoded to the timestamp that the converter gives
    for the text without its seventh digit [c]; that digit is recorded for
    the column unless it is zero; and with high precision kept, the side
    value is the raw text followed by ["00"]: the seventh digit stays and
    two zeros are appended, it is not replaced. *)
Theorem datetime_seventh_digit_row
    (declared name date mm ss six : string) (c : ascii) (d : datetime) :
  PyStr.lower declared = "datetime" ->
  PyStr.no_char ":" date = true ->
  PyStr.no_char ":" mm = true ->
  PyStr.all_digits ss = true ->
  PyStr.all_digits six = true ->
  String.length six = 6%nat ->
  PyStr.isdigit c = true ->
  let truncated := (date ++ ":" ++ mm ++ ":" ++ ss ++ "." ++ six)%string in
  to_datetime (JStr truncated) = Ok d ->
  KustoResultRow_init
    [{| column_name := JStr name; column_type := JStr declared;
        ordinal := 0 |}]
    (JList [JStr (truncated ++ String c "")%string])
  = Ok {| _value_by_name := [(KName name, VDatetime d)];
          _value_by_index := [VDatetime d];
          _hidden_values :=
            if keep_high_precision_values
            then [VJson (JStr (truncated ++ String c "00")%string)]
            else [];
          _seventh_digit :=
            if Z.eqb (PyStr.digit_value c) 0 then []
            else [(KName name, PyStr.digit_value c)] |}.
Proof.
  intros Hdt Hdate Hmm Hss Hsix Hlen Hc truncated Hconv.
  destruct (@seven_digit_fields date mm ss six c Hdate Hmm Hss Hsix Hlen Hc)
    as (Hfrac & Hseventh & Hsuffix & Hdrop).
  fold truncated in Hfrac, Hsuffix, Hdrop.
  rewrite <- Hdrop in Hconv.
  rewrite (@datetime_digit_row declared name _ _ c d
             Hdt Hfrac Hseventh Hc Hsuffix Hconv).
  rewrite Hdrop. reflexivity.
Qed.

End TemporalProperties.

(** ** Rows *)

Section DistinctNames.

Lemma add_name_in (n m : string) (seen : list string) :
  In n (add_name m seen) <-> n = m \/ In n seen.
Proof.
  induction seen as [| x seen IH]; simpl.
  - intuition auto.
  - destruct (String.eqb_spec x m) as [-> | Hne]; simpl.
    + intuition auto.
    + rewrite IH. intuition auto.
Qed.

Lemma add_name_nodup (m : string) (seen : list string) :
  NoDup seen -> NoDup (add_name m seen).
Proof.
  induction seen as [| x seen IH]; simpl; intros Hnd.
  - constructor; [intros [] | constructor].
  - destruct (String.eqb_spec x m) as [-> | Hne]; [exact Hnd |].
    inversion Hnd as [| ? ? Hx Hseen]; subst.
    constructor; [| exact (IH Hseen)].
    rewrite add_name_in. intros [-> | Hin]; [apply Hne; reflexivity | exact (Hx Hin)].
Qed.

Lemma add_name_fresh (m : string) (seen : list string) :
  ~ In m seen -> add_name m seen = seen ++ [m].
Proof.
  induction seen as [| x seen IH]; simpl; intros Hfresh; [reflexivity |].
  destruct (String.eqb_spec x m) as [-> | Hne].
  - exfalso. apply Hfresh. left. reflexivity.
  - rewrite IH; [reflexivity |]. intros Hin. apply Hfresh. right. exact Hin.
Qed.

Lemma fold_add_name_in (names seen : list string) (n : string) :
  In n (fold_left (fun seen n => add_name n seen) names seen)
  <-> In n seen \/ In n names.
Proof.
  revert seen. induction names as [| m names IH]; simpl; intros seen.
  - intuition auto.
  - rewrite IH, add_name_in. intuition auto.
Qed.

Lemma fold_add_name_nodup (names seen : list string) :
  NoDup seen -> NoDup (fold_left (fun seen n => add_name n seen) names seen).
Proof.
  revert seen. induction names as [| m names IH]; simpl; intros seen Hnd.
  - exact Hnd.
  - apply IH, add_name_nodup, Hnd.
Qed.

Lemma fold_add_name_fresh (names seen : list string) :
  NoDup (seen ++ names) ->
  fold_left (fun seen n => add_name n seen) names seen = seen ++ names.
Proof.
  revert seen. induction names as [| m names IH]; simpl; intros seen Hnd.
  - rewrite app_nil_r. reflexivity.
  - assert (Hfresh : ~ In m seen).
    { apply NoDup_remove_2 in Hnd. intros Hin. apply Hnd.
      apply in_or_app. left. exact Hin. }
    rewrite add_name_fresh by exact Hfresh.
    rewrite IH; rewrite <- app_assoc; simpl; [reflexivity | exact Hnd].
Qed.

Lemma distinct_names_in (names : list string) (n : string) :
  In n (distinct_names names) <-> In n names.
Proof.
  unfold distinct_names. rewrite fold_add_name_in. simpl. intuition auto.
Qed.

Lemma distinct_names_nodup (names : list string) :
  NoDup (distinct_names names).
Proof. apply fold_add_name_nodup. constructor. Qed.

Lemma distinct_names_id (names : list string) :
  NoDup names -> distinct_names names = names.
Proof. intros Hnd. apply (fold_add_name_fresh names []). exact Hnd. Qed.

End DistinctNames.

Section RowProperties.

Context {H : Host}.

Local Notation json := (json float).
Local Notation M := (result (pyexn float)).

#[local] Arguments decode_cell : simpl never.

(** The keys after an assignment under a name. *)
Lemma dict_set_keys {V} (n : string) (v : V) (d : pydict V)
    (seen : list string) :
  map fst d = map KName seen ->
  map fst (dict_set (KName n) v d) = map KName (add_name n seen).
Proof.
  revert seen. induction d as [| [k w] d IH]; simpl; intros seen Hkeys.
  - destruct seen; [reflexivity | discriminate Hkeys].
  - destruct seen as [| m seen]; [discriminate Hkeys |].
    simpl in Hkeys. injection Hkeys as -> Hkeys. simpl.
    destruct (String.eqb m n); simpl.
    + rewrite Hkeys. reflexivity.
    + rewrite (IH seen Hkeys). reflexivity.
Qed.

(** A decoded cell of a column whose type and name are strings. *)
Lemma decode_cell_named
    (columns : list KustoResultColumn) (self self' : KustoResultRow)
    (i : nat) (v : json) (column : KustoResultColumn) (t n : string) :
  nth_error columns i = Some column ->
  column_type column = JStr t ->
  column_name column = JStr n ->
  decode_cell columns self (i, v) = Ok self' ->
  exists typed_value,
    _value_by_name self' = dict_set (KName n) typed_value (_value_by_name self)
    /\ _value_by_index self' = _value_by_index self ++ [typed_value].
Proof.
  intros Hcol Htype Hname Hcell.
  unfold decode_cell in Hcell. rewrite Hcol, Htype in Hcell.
  bind_inv Hcell as triple Etriple.
  destruct triple as [[typed_value hidden] digits].
  rewrite Hname in Hcell. simpl in Hcell. injection Hcell as <-.
  exists typed_value. split; reflexivity.
Qed.

Lemma skipn_nth_error {A} (l : list A) (k : nat) (a : A) :
  nth_error l k = Some a -> skipn k l = a :: skipn (S k) l.
Proof.
  revert l. induction k as [| k IH]; intros [| x l]; simpl;
    try discriminate.
  - intros [= ->]. reflexivity.
  - intros Hk. exact (IH l Hk).
Qed.

Section Loop.

Variable columns : list KustoResultColumn.
Variable names : list string.
Hypothesis columns_typed :
  Forall (fun c => exists t, column_type c = JStr t) columns.
Hypothesis columns_named : map column_name columns = map JStr names.

Lemma column_at (i : nat) (column : KustoResultColumn) :
  nth_error columns i = Some column ->
  exists t n,
    column_type column = JStr t /\ column_name column = JStr n
    /\ nth_error names i = Some n.
Proof.
  intros Hcol.
  assert (Htyped : exists t, column_type column = JStr t).
  { rewrite Forall_forall in columns_typed. apply columns_typed.
    exact (nth_error_In _ _ Hcol). }
  destruct Htyped as (t & Ht).
  pose proof (map_nth_error column_name _ _ Hcol) as Hname.
  rewrite columns_named in Hname.
  destruct (nth_error names i) as [n |] eqn:En.
  - rewrite (map_nth_error JStr _ _ En) in Hname. injection Hname as Hname.
    exists t, n. repeat split; [exact Ht | symmetry; exact Hname].
  - apply nth_error_None in En.
    assert (Hlen : (length (map JStr names : list json) <= i)%nat)
      by (rewrite length_map; exact En).
    apply nth_error_None in Hlen. rewrite Hlen in Hname. discriminate Hname.
Qed.

(** The loop of [__init__] from position [k] on: every cell appends one
    value, and the keys grow by the names of the cells' columns. *)
Lemma loop_keys (cells : list json) :
  forall (k : nat) (self r : KustoResultRow) (seen : list string),
    foldM (decode_cell columns) (combine (seq k (length cells)) cells) self
    = Ok r ->
    map fst (_value_by_name self) = map KName seen ->
    length (_value_by_index r)
    = (length (_value_by_index self) + length cells)%nat
    /\ map fst (_value_by_name r)
       = map KName
           (fold_left (fun seen n => add_name n seen)
                      (firstn (length cells) (skipn k names)) seen).
Proof.
  induction cells as [| v cells IH]; intros k self r seen Hloop Hkeys.
  - simpl in Hloop. injection Hloop as <-. simpl.
    split; [lia | exact Hkeys].
  - simpl in Hloop. bind_inv Hloop as self1 Ecell.
    destruct (nth_error columns k) as [column |] eqn:Hcol;
      [| unfold decode_cell in Ecell; rewrite Hcol in Ecell;
         discriminate Ecell].
    destruct (column_at _ Hcol) as (t & n & Ht & Hn & Hnth).
    destruct (@decode_cell_named columns self self1 k v column t n
                Hcol Ht Hn Ecell)
      as (typed_value & Hby_name & Hby_index).
    assert (Hkeys1 : map fst (_value_by_name self1)
                     = map KName (add_name n seen)).
    { rewrite Hby_name. apply dict_set_keys. exact Hkeys. }
    destruct (IH (S k) self1 r (add_name n seen) Hloop Hkeys1) as [Hlen Hfinal].
    split.
    + rewrite Hlen, Hby_index, length_app. simpl. lia.
    + rewrite Hfinal. rewrite (skipn_nth_error _ _ Hnth). reflexivity.
Qed.

End Loop.

(** Whatever the columns are, a decoded row has one value by position for
    each raw value. *)
Lemma decode_cell_appends
    (columns : list KustoResultColumn) (self self' : KustoResultRow)
    (cell : nat * json) :
  decode_cell columns self cell = Ok self' ->
  length (_value_by_index self') = S (length (_value_by_index self)).
Proof.
  destruct cell as [i v]. unfold decode_cell.
  destruct (nth_error columns i) as [column |]; [| discriminate].
  destruct (column_type column) as [| b | z | f | s | l | d];
    try (intros [= <-]; simpl; rewrite length_app; simpl; lia).
  intros Hcell. bind_inv Hcell as triple Etriple.
  destruct triple as [[typed_value hidden] digits].
  bind_inv Hcell as k Ek. injection Hcell as <-.
  simpl. rewrite length_app. simpl. lia.
Qed.

Lemma loop_appends (columns : list KustoResultColumn) (cells : list json) :
  forall (k : nat) (self r : KustoResultRow),
    foldM (decode_cell columns) (combine (seq k (length cells)) cells) self
    = Ok r ->
    length (_value_by_index r)
    = (length (_value_by_index self) + length cells)%nat.
Proof.
  induction cells as [| v cells IH]; intros k self r Hloop; simpl in Hloop.
  - injection Hloop as <-. simpl. lia.
  - bind_inv Hloop as self1 Ecell.
    rewrite (IH _ _ _ Hloop), (@decode_cell_appends _ _ _ _ Ecell).
    simpl. lia.
Qed.

Lemma row_index_length
    (columns : list KustoResultColumn) (cells : list json)
    (r : KustoResultRow) :
  KustoResultRow_init columns (JList cells) = Ok r ->
  length (row_to_list r) = length cells.
Proof.
  unfold KustoResultRow_init, row_to_list, enumerate. simpl. intros Hloop.
  rewrite (@loop_appends _ _ _ _ _ Hloop). reflexivity.
Qed.

(** The lengths of a decoded row with one raw value per column, all
    columns declaring a string type and a string name: the
    position-indexed list has one value per column; the keys of the
    name-indexed dict are the distinct column names, each once; and
    [columns_count], which is what [len(row)] returns, counts these keys. *)
Lemma row_lengths
    (columns : list KustoResultColumn) (names : list string)
    (cells : list json) (r : KustoResultRow) :
  Forall (fun c => exists t, column_type c = JStr t) columns ->
  map column_name columns = map JStr names ->
  length cells = length columns ->
  KustoResultRow_init columns (JList cells) = Ok r ->
  length (row_to_list r) = length columns
  /\ map fst (row_to_dict r) = map KName (distinct_names names)
  /\ NoDup (distinct_names names)
  /\ (forall n, In n (distinct_names names) <-> In n names)
  /\ row_len r = length (distinct_names names)
  /\ (NoDup names -> row_len r = length columns).
Proof.
  intros Htyped Hnamed Hlen Hinit.
  unfold KustoResultRow_init in Hinit. simpl in Hinit.
  unfold enumerate in Hinit.
  destruct (@loop_keys columns names Htyped Hnamed cells 0 empty_row r []
              Hinit eq_refl) as [Hindex Hkeys].
  assert (Hnames : length names = length columns).
  { rewrite <- (length_map JStr names : length (map JStr names : list json) = _).
    rewrite <- Hnamed. apply length_map. }
  simpl in Hkeys. rewrite Hlen, <- Hnames, firstn_all in Hkeys.
  fold (distinct_names names) in Hkeys.
  assert (Hcount : row_len r = length (distinct_names names)).
  { unfold row_len, row_columns_count.
    rewrite <- (length_map fst), Hkeys. apply length_map. }
  split; [simpl in Hindex; unfold row_to_list; lia |].
  split; [exact Hkeys |].
  split; [apply distinct_names_nodup |].
  split; [apply distinct_names_in |].
  split; [exact Hcount |].
  intros Hnd. rewrite Hcount, (distinct_names_id Hnd). exact Hnames.
Qed.

Lemma distinct_names_shorter (names : list string) (i j : nat) (n : string) :
  (i < j)%nat ->
  nth_error names i = Some n ->
  nth_error names j = Some n ->
  (length (distinct_names names) < length names)%nat.
Proof.
  intros Hij Hi Hj.
  destruct (le_lt_dec (length names) (length (distinct_names names)))
    as [Hle | Hlt]; [| exact Hlt].
  exfalso.
  assert (Hnd : NoDup names).
  { apply (NoDup_incl_NoDup (distinct_names_nodup names) Hle).
    intros x Hx. apply distinct_names_in. exact Hx. }
  rewrite NoDup_nth_error in Hnd.
  assert (Heq : i = j).
  { apply Hnd.
    - apply nth_error_Some. rewrite Hi. discriminate.
    - rewrite Hi, Hj. reflexivity. }
  lia.
Qed.

(** C3, where the code misses it: when two columns of a decoded row share
    a name (all columns declaring a string type and a string name, one raw
    value per column), the row holds one value by position for every
    column, but [len(row)], which returns the number of keys of the
    name-indexed dict, is the number of distinct names and so less than the
    number of columns. *)
Theorem row_len_misses_repeated_names
    (columns : list KustoResultColumn) (names : list string)
    (cells : list json) (r : KustoResultRow) (i j : nat) (n : string) :
  Forall (fun c => exists t, column_type c = JStr t) columns ->
  map column_name columns = map JStr names ->
  length cells = length columns ->
  KustoResultRow_init columns (JList cells) = Ok r ->
  (i < j)%nat ->
  nth_error names i = Some n ->
  nth_error names j = Some n ->
  length (row_to_list r) = length columns
  /\ row_len r = length (distinct_names names)
  /\ (row_len r < length columns)%nat.
Proof.
  intros Htyped Hnamed Hlen Hinit Hij Hi Hj.
  destruct (@row_lengths columns names cells r Htyped Hnamed Hlen Hinit)
    as (Hlist & _ & _ & _ & Hcount & _).
  split; [exact Hlist |]. split; [exact Hcount |].
  assert (Hnames : length names = length columns).
  { rewrite <- (length_map JStr names : length (map JStr names : list json) = _).
    rewrite <- Hnamed. apply length_map. }
  rewrite Hcount, <- Hnames.
  exact (distinct_names_shorter names Hij Hi Hj).
Qed.

End RowProperties.

(** ** The decoder on concrete documents

    The statements below run the decoder on the sample host with high
    precision kept. *)

(** The seventh digit of the timestamp of the specification: the typed
    value is the six-digit text, 7 is recorded, and the side value has nine
    fractional digits. *)
Lemma datetime_seventh_digit_row_witness :
  KustoResultRow_init (H := Sample.host true)
    [Sample.column true "ts" "datetime" 0]
    (JList [JStr "2021-01-01T00:00:00.1234567"])
  = Ok {| _value_by_name :=
            [(KName "ts", VDatetime ("2021-01-01T00:00:00.123456" : @datetime (Sample.host true)))];
          _value_by_index := [VDatetime ("2021-01-01T00:00:00.123456" : @datetime (Sample.host true))];
          _hidden_values := [VJson (JStr "2021-01-01T00:00:00.123456700")];
          _seventh_digit := [(KName "ts", 7%Z)] |}.
Proof.
  exact (@datetime_seventh_digit_row (Sample.host true)
           "datetime" "ts" "2021-01-01T00" "00" "00" "123456" "7"%char
           "2021-01-01T00:00:00.123456"
           eq_refl eq_refl eq_refl eq_refl eq_refl eq_refl eq_refl eq_refl).
Defined.

(** The side value of that timestamp is not the text that ends in
    [".12345600"]. *)
Lemma datetime_side_value_counterexample :
  exists r,
    KustoResultRow_init (H := Sample.host true)
      [Sample.column true "ts" "datetime" 0]
      (JList [JStr "2021-01-01T00:00:00.1234567"]) = Ok r
    /\ _hidden_values r = [VJson (JStr "2021-01-01T00:00:00.123456700")]
    /\ _hidden_values r <> [VJson (JStr "2021-01-01T00:00:00.12345600")].
Proof.
  eexists. split; [reflexivity |]. split; [reflexivity |].
  simpl. intros Heq. discriminate Heq.
Qed.

(** A well-formed row, a row with more cells than columns, which could not
    be decoded, and an error object in the last place: the message of the
    document is the one that is raised. *)
Lemma embedded_error_aborts_table_witness :
  let error :=
    JDict [("OneApiErrors",
            JList [JDict [("error",
                           JDict [("code", JStr "LimitsExceeded");
                                  ("@message", JStr "Query failed")])];
                   JDict [("error",
                           JDict [("@message", JStr "second")])]])] in
  let json_table :=
    JDict [("TableName", JStr "T"); ("TableKind", JStr "PrimaryResult");
           ("Columns",
            JList [JDict [("ColumnName", JStr "a");
                          ("ColumnType", JStr "long")]]);
           ("Rows", JList [JList [JInt 1]; JList [JInt 2; JInt 3]; error])] in
  KustoResultRow_init (H := Sample.host true)
    [Sample.column true "a" "long" 0] (JList [JInt 2; JInt 3])
  = Raise IndexError
  /\ KustoResultTable_init (H := Sample.host true) json_table
     = Raise (KustoServiceError (JStr "Query failed") json_table).
Proof.
  intros error json_table. split; [reflexivity |].
  apply (@embedded_error_aborts_table (Sample.host true) json_table
           (JStr "T", JNull, Some PrimaryResult,
            [Sample.column true "a" "long" 0])
           [JList [JInt 1]; JList [JInt 2; JInt 3]] []
           [("OneApiErrors",
             JList [JDict [("error",
                            JDict [("code", JStr "LimitsExceeded");
                                   ("@message", JStr "Query failed")])];
                    JDict [("error",
                            JDict [("@message", JStr "second")])]])]
           [JDict [("error", JDict [("@message", JStr "second")])]]
           [("error",
             JDict [("code", JStr "LimitsExceeded");
                    ("@message", JStr "Query failed")])]
           [("code", JStr "LimitsExceeded");
            ("@message", JStr "Query failed")]
           (JStr "Query failed"));
    reflexivity.
Defined.

(** A dict among the rows that holds no error list: the lookup of
    ["OneApiErrors"] raises KeyError and no service error is raised. *)
Lemma embedded_error_without_message_counterexample :
  let json_table : json Sample.dec :=
    JDict [("Columns",
            JList [JDict [("ColumnName", JStr "a");
                          ("ColumnType", JStr "long")]]);
           ("Rows", JList [JList [JInt 1]; JDict []])] in
  KustoResultTable_init (H := Sample.host true) json_table = Raise KeyError
  /\ forall message,
       KustoResultTable_init (H := Sample.host true) json_table
       <> Raise (KustoServiceError message json_table).
Proof.
  intros json_table. split; [reflexivity |].
  intros message Hservice.
  assert (Hkey : KustoResultTable_init (H := Sample.host true) json_table
                 = Raise KeyError) by reflexivity.
  rewrite Hkey in Hservice. discriminate Hservice.
Qed.

(** Two columns with distinct names. *)
Lemma row_lengths_witness :
  exists r,
    KustoResultRow_init (H := Sample.host true)
      [Sample.column true "a" "long" 0; Sample.column true "b" "string" 1]
      (JList [JInt 1; JStr "x"]) = Ok r
    /\ length (row_to_list r) = 2%nat
    /\ map fst (row_to_dict r) = [KName "a"; KName "b"]
    /\ row_len r = 2%nat.
Proof.
  eexists. split; [reflexivity |].
  destruct (@row_lengths (Sample.host true)
              [Sample.column true "a" "long" 0;
               Sample.column true "b" "string" 1]
              ["a"; "b"] [JInt 1; JStr "x"] _
              ltac:(repeat constructor; eexists; reflexivity)
              eq_refl eq_refl eq_refl)
    as (Hlist & Hkeys & _ & _ & Hlen & _).
  split; [exact Hlist |]. split; [exact Hkeys | exact Hlen].
Defined.

(** Two columns that share a name: two values by position, and [len(row)]
    is 1. *)
Lemma row_len_misses_repeated_names_witness :
  exists r,
    KustoResultRow_init (H := Sample.host true)
      [Sample.column true "a" "long" 0; Sample.column true "a" "long" 1]
      (JList [JInt 1; JInt 2]) = Ok r
    /\ length (row_to_list r) = 2%nat
    /\ row_len r = 1%nat
    /\ (row_len r < 2)%nat.
Proof.
  eexists. split; [reflexivity |].
  refine (@row_len_misses_repeated_names (Sample.host true)
            [Sample.column true "a" "long" 0; Sample.column true "a" "long" 1]
            ["a"; "a"] [JInt 1; JInt 2] _ 0%nat 1%nat "a"
            _ eq_refl eq_refl _ _ eq_refl eq_refl).
  - repeat constructor; eexists; reflexivity.
  - reflexivity.
  - lia.
Defined.

(** A column described by its name alone. *)
Lemma column_type_keys_witness :
  KustoResultColumn_init (H := Sample.host true)
    (JDict [("ColumnName", JStr "a")]) 0
  = Raise KeyError.
Proof.
  apply (proj1 (@column_type_keys (Sample.host true)
                  [("ColumnName", JStr "a")] 0%nat eq_refl)).
  reflexivity.
Defined.

(** A table with such a column is not constructed. *)
Lemma missing_type_keys_counterexample :
  KustoResultTable_init (H := Sample.host true)
    (JDict [("Columns", JList [JDict [("ColumnName", JStr "a")]]);
            ("Rows", JList [JList [JInt 1]])])
  = Raise KeyError.
Proof. reflexivity. Qed.

(** A primary result: the slot holds the member. *)
Lemma to_dict_kind_member_witness :
  exists t,
    KustoResultTable_init (H := Sample.host true)
      (JDict [("TableKind", JStr "PrimaryResult");
              ("Columns", JList []); ("Rows", JList [])]) = Ok t
    /\ exists m,
         d_kind (table_to_dict t) = KindMember m
         /\ enum_value m = "PrimaryResult".
Proof.
  eexists. split; [reflexivity |].
  destruct (@to_dict_kind_member (Sample.host true)
              [("TableKind", JStr "PrimaryResult");
               ("Columns", JList []); ("Rows", JList [])]
              "PrimaryResult" _ eq_refl eq_refl)
    as (m & Hslot & Hvalue & _).
  exists m. split; [exact Hslot | exact Hvalue].
Defined.

(** The slot of that table is not the string. *)
Lemma to_dict_kind_counterexample :
  exists t,
    KustoResultTable_init (H := Sample.host true)
      (JDict [("TableKind", JStr "PrimaryResult");
              ("Columns", JList []); ("Rows", JList [])]) = Ok t
    /\ d_kind (table_to_dict t) = KindMember PrimaryResult
    /\ d_kind (table_to_dict t) <> KindStr "PrimaryResult".
Proof.
  eexists. split; [reflexivity |]. split; [reflexivity |].
  simpl. discriminate.
Qed.

(** A date without a time: the split has no third field. *)
Lemma extraction_failure_falls_back_witness :
  decode_temporal (H := Sample.host true) "datetime"
    (Sample.column true "ts" "datetime" 0) (JStr "2021-01-01") []
  = Ok (VDatetime ("2021-01-01" : @datetime (Sample.host true)), Some (VJson (JStr "2021-01-01")), []).
Proof.
  destruct (@extraction_failure_falls_back (Sample.host true) "datetime"
              (Sample.column true "ts" "datetime" 0) (JStr "2021-01-01")
              "" [] IndexError eq_refl (or_introl eq_refl))
    as (_ & _ & Hdecoded).
  exact (Hdecoded (VDatetime ("2021-01-01" : @datetime (Sample.host true))) eq_refl eq_refl).
Defined.

(** C8, at a column whose ["DataType"] is null: the raw value is found by
    position and in the side values, but the name-indexed dict holds it
    under the descriptor, and the lookup by the column's name raises
    KeyError. *)
Theorem untyped_column_name_lookup :
  let column : @KustoResultColumn (Sample.host true) :=
    {| column_name := JStr "a"; column_type := JNull; ordinal := 0 |} in
  exists t r,
    KustoResultTable_init (H := Sample.host true)
      (JDict [("Columns",
               JList [JDict [("ColumnName", JStr "a"); ("DataType", JNull)]]);
              ("Rows", JList [JList [JInt 1]])]) = Ok t
    /\ columns t = [column]
    /\ rows t = [r]
    /\ row_getitem r (JInt 0) = Ok (VJson (JInt 1))
    /\ _hidden_values r = [VJson (JInt 1)]
    /\ row_to_dict r = [(KColumn column, VJson (JInt 1))]
    /\ row_getitem r (JStr "a") = Raise KeyError.
Proof.
  intros column. eexists. eexists.
  split; [reflexivity |]. repeat split; reflexivity.
Qed.

(** A document without ["TableKind"]. *)
Lemma table_str_without_kind_witness :
  exists t,
    KustoResultTable_init (H := Sample.host true)
      (JDict [("Columns", JList []); ("Rows", JList [])]) = Ok t
    /\ table_str (@Sample.dumps_kind true) t = Raise AttributeError.
Proof.
  eexists. split; [reflexivity |].
  apply (@table_str_without_kind (Sample.host true) (@Sample.dumps_kind true)
           [("Columns", JList []); ("Rows", JList [])] _ eq_refl eq_refl).
Defined.

(** * Further properties of the decoder *)

(** ** Invariants of every decoded row *)

Section RowInvariants.

Context {H : Host}.

Local Notation json := (json float).
Local Notation exn := (pyexn float).
Local Notation M := (result exn).

#[local] Arguments decode_cell : simpl never.

Lemma dict_set_length {V} (k : key) (v : V) (d : pydict V) :
  (length (dict_set k v d) <= S (length d))%nat.
Proof.
  induction d as [| [k' w] d IH]; simpl; [lia |].
  destruct (key_eqb k' k); simpl; lia.
Qed.

(** The side value of a temporal cell is there exactly when the flag is
    set. *)
Lemma decode_temporal_hidden
    (column_type : string) (column : KustoResultColumn) (v : json)
    (digits digits' : pydict Z) (typed_value : value) (hidden : option value) :
  decode_temporal column_type column v digits
  = Ok (typed_value, hidden, digits') ->
  if keep_high_precision_values
  then exists h, hidden = Some h else hidden = None.
Proof.
  unfold decode_temporal. intros Hdec.
  bind_inv Hdec as suffix Esuffix.
  destruct (try_precision column_type column v suffix digits)
    as [kwargs outcome].
  bind_inv Hdec as pair Epair. destruct pair as [tv dg].
  destruct keep_high_precision_values.
  - bind_inv Hdec as h Eh. injection Hdec as _ <- _. eexists. reflexivity.
  - injection Hdec as _ <- _. reflexivity.
Qed.

(** What one decoded cell does to the row, whatever its column is: one
    value by position, the same value under one key, and one side value
    when the flag is set. *)
Lemma decode_cell_shape
    (columns : list KustoResultColumn) (self self' : KustoResultRow)
    (cell : nat * json) :
  decode_cell columns self cell = Ok self' ->
  exists k typed_value,
    _value_by_name self' = dict_set k typed_value (_value_by_name self)
    /\ _value_by_index self' = _value_by_index self ++ [typed_value]
    /\ length (_hidden_values self')
       = (length (_hidden_values self)
          + if keep_high_precision_values then 1 else 0)%nat.
Proof.
  destruct cell as [i v]. unfold decode_cell.
  destruct (nth_error columns i) as [column |]; [| discriminate].
  assert (Huntyped :
            Ok {| _value_by_name :=
                    dict_set (KColumn column) (VJson v) (_value_by_name self);
                  _value_by_index := _value_by_index self ++ [VJson v];
                  _hidden_values :=
                    if keep_high_precision_values
                    then _hidden_values self ++ [VJson v]
                    else _hidden_values self;
                  _seventh_digit := _seventh_digit self |}
            = (Ok self' : M KustoResultRow) ->
            exists k typed_value,
              _value_by_name self' = dict_set k typed_value (_value_by_name self)
              /\ _value_by_index self' = _value_by_index self ++ [typed_value]
              /\ length (_hidden_values self')
                 = (length (_hidden_values self)
                    + if keep_high_precision_values then 1 else 0)%nat).
  { intros [= <-]. exists (KColumn column), (VJson v). simpl.
    split; [reflexivity |]. split; [reflexivity |].
    destruct keep_high_precision_values; [rewrite length_app; simpl |]; lia. }
  destruct (column_type column) as [| b | z | f | declared | l | d];
    try exact Huntyped.
  clear Huntyped. intros Hcell.
  bind_inv Hcell as triple Etriple.
  destruct triple as [[typed_value hidden] digits].
  bind_inv Hcell as k Ek. injection Hcell as <-.
  exists k, typed_value. simpl.
  split; [reflexivity |]. split; [reflexivity |].
  assert (Hhidden : if keep_high_precision_values
                    then exists h, hidden = Some h else hidden = None).
  { destruct (String.eqb (PyStr.lower declared) "datetime"
              || String.eqb (PyStr.lower declared) "timespan").
    - destruct v;
        try (exact (decode_temporal_hidden _ _ _ _ Etriple)).
      injection Etriple as _ <- _.
      destruct keep_high_precision_values; [eexists |]; reflexivity.
    - destruct (convertion_funcs (PyStr.lower declared)) as [f |].
      + bind_inv Etriple as tv Etv. injection Etriple as _ <- _.
        destruct keep_high_precision_values; [eexists |]; reflexivity.
      + injection Etriple as _ <- _.
        destruct keep_high_precision_values; [eexists |]; reflexivity. }
  destruct keep_high_precision_values.
  - destruct Hhidden as (h & ->). rewrite length_app. simpl. lia.
  - subst hidden. lia.
Qed.

(** The loop of [__init__] from position [k] on, for any columns. *)
Lemma loop_shape (columns : list KustoResultColumn) (cells : list json) :
  forall (k : nat) (self r : KustoResultRow),
    foldM (decode_cell columns) (combine (seq k (length cells)) cells) self
    = Ok r ->
    length (_value_by_index r)
    = (length (_value_by_index self) + length cells)%nat
    /\ (length (_value_by_name r)
        <= length (_value_by_name self) + length cells)%nat
    /\ length (_hidden_values r)
       = (length (_hidden_values self)
          + if keep_high_precision_values then length cells else 0)%nat
    /\ (cells <> [] -> (k + length cells <= length columns)%nat).
Proof.
  induction cells as [| v cells IH]; intros k self r Hloop; simpl in Hloop.
  - injection Hloop as <-. simpl.
    repeat split; try lia.
    + destruct keep_high_precision_values; lia.
    + intros Hne. contradiction Hne. reflexivity.
  - bind_inv Hloop as self1 Ecell.
    assert (Hk : (k < length columns)%nat).
    { apply nth_error_Some. intros Hnone.
      unfold decode_cell in Ecell. rewrite Hnone in Ecell.
      discriminate Ecell. }
    destruct (decode_cell_shape _ _ _ Ecell)
      as (key & typed_value & Hname & Hindex & Hhidden).
    destruct (IH _ _ _ Hloop) as (IHindex & IHname & IHhidden & IHbound).
    pose proof (dict_set_length key typed_value (_value_by_name self)) as Hset.
    rewrite Hname in IHname. rewrite Hindex, length_app in IHindex.
    simpl in IHindex. simpl.
    repeat split; try lia.
    + rewrite IHhidden, Hhidden.
      destruct keep_high_precision_values; lia.
    + intros _. destruct cells as [| v' cells']; simpl in *; [lia |].
      assert (Hne : v' :: cells' <> []) by discriminate.
      specialize (IHbound Hne). simpl in IHbound. lia.
Qed.

(** X1: a decoded row has exactly one value by position for each raw
    value, and the raw values are never more than the columns: a row that
    is longer than the column list is not decoded. *)
Theorem row_cells_bound
    (columns : list KustoResultColumn) (cells : list json)
    (r : KustoResultRow) :
  KustoResultRow_init columns (JList cells) = Ok r ->
  length (row_to_list r) = length cells
  /\ (length cells <= length columns)%nat.
Proof.
  unfold KustoResultRow_init, enumerate, row_to_list. simpl. intros Hloop.
  destruct (loop_shape _ _ _ _ Hloop) as (Hindex & _ & _ & Hbound).
  split; [exact Hindex |].
  destruct cells as [| v cells]; simpl; [lia |].
  assert (Hne : v :: cells <> []) by discriminate.
  specialize (Hbound Hne). simpl in Hbound. lia.
Qed.

(** X2: the side values of a decoded row run parallel to its values when
    high precision is kept, one side value per value, and there is none
    when it is not kept. *)
Theorem hidden_values_parallel
    (columns : list KustoResultColumn) (cells : list json)
    (r : KustoResultRow) :
  KustoResultRow_init columns (JList cells) = Ok r ->
  length (_hidden_values r)
  = if keep_high_precision_values then length (row_to_list r) else 0%nat.
Proof.
  unfold KustoResultRow_init, enumerate, row_to_list. simpl. intros Hloop.
  destruct (loop_shape _ _ _ _ Hloop) as (Hindex & _ & Hhidden & _).
  rewrite Hhidden, Hindex. simpl.
  destruct keep_high_precision_values; reflexivity.
Qed.

(** [l[i]] for a natural number [i]. *)
Lemma list_item_nat {A} (l : list A) (i : nat) :
  list_item l (Z.of_nat i)
  = match nth_error l i with
    | Some a => Ok a
    | None => (Raise IndexError : M A)
    end.
Proof.
  unfold list_item.
  destruct (Z.ltb_spec (Z.of_nat i) 0) as [Hneg | _]; [lia |].
  destruct (Z.ltb_spec (Z.of_nat i) 0) as [Hneg | _]; [lia |].
  rewrite Nat2Z.id. reflexivity.
Qed.

Lemma mapM_items {A} (l : list A) (n : nat) :
  forall a : nat,
    (a + n <= length l)%nat ->
    mapM (fun i => list_item l (Z.of_nat i)) (seq a n)
    = (Ok (firstn n (skipn a l)) : M (list A)).
Proof.
  induction n as [| n IH]; intros a Hbound; simpl; [reflexivity |].
  rewrite list_item_nat.
  destruct (nth_error l a) as [x |] eqn:Hx.
  - simpl. rewrite IH by lia. simpl.
    rewrite (skipn_nth_error _ _ Hx). reflexivity.
  - apply nth_error_None in Hx. lia.
Qed.

(** X3: iterating over a decoded row never raises and yields the first
    [columns_count] values by position; the count is never more than the
    number of values, so the iteration yields all of them exactly when the
    name-indexed dict has one entry per value. *)
Theorem row_iter_prefix
    (columns : list KustoResultColumn) (cells : list json)
    (r : KustoResultRow) :
  KustoResultRow_init columns (JList cells) = Ok r ->
  (row_columns_count r <= length (row_to_list r))%nat
  /\ row_iter r = Ok (firstn (row_columns_count r) (row_to_list r))
  /\ (row_columns_count r = length (row_to_list r) ->
      row_iter r = Ok (row_to_list r)).
Proof.
  unfold KustoResultRow_init, enumerate. simpl. intros Hloop.
  destruct (loop_shape _ _ _ _ Hloop) as (Hindex & Hname & _ & _).
  simpl in Hindex, Hname.
  assert (Hcount : (row_columns_count r <= length (row_to_list r))%nat).
  { unfold row_columns_count, row_to_list. lia. }
  assert (Hiter : row_iter r
                  = Ok (firstn (row_columns_count r) (row_to_list r))).
  { unfold row_iter. rewrite mapM_items by exact Hcount. reflexivity. }
  split; [exact Hcount |]. split; [exact Hiter |].
  intros Hall. rewrite Hiter, Hall. rewrite firstn_all. reflexivity.
Qed.

(** A number that [_seventh_digit] may hold. *)
Local Notation tick_ok := (fun kv : key * Z =>
                             (-9 <= snd kv <= 9)%Z /\ snd kv <> 0%Z).

Lemma dict_set_ticks (k : key) (t : Z) (digits : pydict Z) :
  (-9 <= t <= 9)%Z /\ t <> 0%Z ->
  Forall tick_ok digits -> Forall tick_ok (dict_set k t digits).
Proof.
  intros Ht. induction digits as [| [k' t'] digits IH]; simpl; intros Hall.
  - constructor; [exact Ht | constructor].
  - inversion Hall as [| ? ? Hhead Htail]; subst.
    destruct (key_eqb k' k); constructor; auto.
Qed.

Lemma signed_tick_range
    (column_type : string) (typed_value : value) (c : ascii) (t : Z) :
  PyStr.isdigit c = true ->
  PyStr.digit_value c <> 0%Z ->
  signed_tick column_type typed_value (PyStr.digit_value c) = Ok t ->
  (-9 <= t <= 9)%Z /\ t <> 0%Z.
Proof.
  intros Hdigit Hnonzero. pose proof (digit_value_range c Hdigit) as Hrange.
  unfold signed_tick.
  destruct (String.eqb column_type "datetime"); [intros [= <-]; lia |].
  destruct (String.eqb column_type "timespan"); [| discriminate].
  destruct typed_value as [j | d | td | d]; try discriminate.
  intros [= <-]. destruct (timedelta_is_abs td); lia.
Qed.

Lemma try_precision_ticks
    (column_type : string) (column : KustoResultColumn) (v : json)
    (suffix : string) (digits digits' : pydict Z) (kwargs : precise_kwargs)
    (typed_value : value) :
  try_precision column_type column v suffix digits
  = (kwargs, Ok (typed_value, digits')) ->
  Forall tick_ok digits -> Forall tick_ok digits'.
Proof.
  unfold try_precision. intros Htry Hall.
  destruct (fractions_of v) as [frac | e]; [| discriminate Htry].
  destruct (seventh_of frac) as [c | e]; [| discriminate Htry].
  destruct (PyStr.isdigit c) eqn:Hdigit; injection Htry as _ Hout.
  - destruct v as [| b | z | f | s | l | d]; try discriminate Hout.
    bind_inv Hout as tv Etv.
    destruct (Z.eqb_spec (PyStr.digit_value c) 0) as [Hzero | Hnonzero].
    + injection Hout as _ <-. exact Hall.
    + bind_inv Hout as t Et. bind_inv Hout as k Ek. injection Hout as _ <-.
      apply dict_set_ticks; [| exact Hall].
      exact (signed_tick_range _ _ _ Hdigit Hnonzero Et).
  - bind_inv Hout as tv Etv. injection Hout as _ <-. exact Hall.
Qed.

Lemma decode_temporal_ticks
    (column_type : string) (column : KustoResultColumn) (v : json)
    (digits digits' : pydict Z) (typed_value : value) (hidden : option value) :
  decode_temporal column_type column v digits
  = Ok (typed_value, hidden, digits') ->
  Forall tick_ok digits -> Forall tick_ok digits'.
Proof.
  unfold decode_temporal. intros Hdec Hall.
  bind_inv Hdec as suffix Esuffix.
  destruct (try_precision column_type column v suffix digits)
    as [kwargs outcome] eqn:Etry.
  bind_inv Hdec as pair Epair. destruct pair as [tv dg].
  assert (Hdg : Forall tick_ok dg).
  { unfold except_fallback in Epair. destruct outcome as [[tv' dg'] | e].
    - injection Epair as _ <-. eapply try_precision_ticks; eassumption.
    - destruct (caught e); [| discriminate Epair].
      bind_inv Epair as tv' Etv. injection Epair as _ <-. exact Hall. }
  destruct keep_high_precision_values.
  - bind_inv Hdec as h Eh. injection Hdec as _ _ <-. exact Hdg.
  - injection Hdec as _ _ <-. exact Hdg.
Qed.

Lemma decode_cell_ticks
    (columns : list KustoResultColumn) (self self' : KustoResultRow)
    (cell : nat * json) :
  decode_cell columns self cell = Ok self' ->
  Forall tick_ok (_seventh_digit self) ->
  Forall tick_ok (_seventh_digit self').
Proof.
  destruct cell as [i v]. unfold decode_cell. intros Hcell Hall.
  destruct (nth_error columns i) as [column |]; [| discriminate Hcell].
  destruct (column_type column) as [| b | z | f | declared | l | d];
    try (injection Hcell as <-; exact Hall).
  bind_inv Hcell as triple Etriple.
  destruct triple as [[typed_value hidden] digits].
  bind_inv Hcell as k Ek. injection Hcell as <-. simpl.
  destruct (String.eqb (PyStr.lower declared) "datetime"
            || String.eqb (PyStr.lower declared) "timespan").
  - destruct v;
      try (eapply decode_temporal_ticks; eassumption).
    injection Etriple as _ _ <-. exact Hall.
  - destruct (convertion_funcs (PyStr.lower declared)) as [f |].
    + bind_inv Etriple as tv Etv. injection Etriple as _ _ <-. exact Hall.
    + injection Etriple as _ _ <-. exact Hall.
Qed.

(** X4: every number that a decoded row holds in [_seventh_digit], for
    any columns and raw values, is a non-zero integer between -9 and 9. *)
Theorem seventh_digit_bounds
    (columns : list KustoResultColumn) (cells : list json)
    (r : KustoResultRow) :
  KustoResultRow_init columns (JList cells) = Ok r ->
  Forall (fun kv => (-9 <= snd kv <= 9)%Z /\ snd kv <> 0%Z)
         (_seventh_digit r).
Proof.
  unfold KustoResultRow_init, enumerate. simpl.
  assert (Hempty : Forall tick_ok (_seventh_digit empty_row)) by constructor.
  revert Hempty. generalize empty_row. generalize 0%nat.
  induction cells as [| v cells IH]; intros k self Hall Hloop;
    simpl in Hloop.
  - injection Hloop as <-. exact Hall.
  - bind_inv Hloop as self1 Ecell.
    eapply IH; [eapply decode_cell_ticks; eassumption | exact Hloop].
Qed.

End RowInvariants.

(** ** Looking values up by name *)

Section NameLookup.

Context {H : Host}.

Local Notation json := (json float).
Local Notation M := (result (pyexn float)).

#[local] Arguments decode_cell : simpl never.

Lemma in_firstn {A} (x : A) (n : nat) (l : list A) :
  In x (firstn n l) -> In x l.
Proof.
  revert l. induction n as [| n IH]; intros [| y l]; simpl; try tauto.
  intros [-> | Hin]; [left; reflexivity | right; exact (IH _ Hin)].
Qed.

(** Assigning the values [vs] under the names [ns], one after the other. *)
Local Notation assign_all ns vs d :=
  (fold_left (fun (acc : pydict value) (nv : string * value) =>
                dict_set (KName (fst nv)) (snd nv) acc)
             (combine ns vs) d).

Lemma dict_get_set_other {V} (n m : string) (v : V) (d : pydict V) :
  n <> m ->
  dict_get (KName n) (dict_set (KName m) v d) = dict_get (KName n) d.
Proof.
  intros Hne. induction d as [| [k w] d IH]; simpl.
  - destruct (String.eqb_spec m n) as [-> |]; [contradiction Hne |];
      reflexivity.
  - destruct (key_eqb k (KName m)) eqn:Ekm; simpl.
    + destruct k as [s | j | c]; simpl in Ekm; try discriminate Ekm.
      apply String.eqb_eq in Ekm. subst s. simpl.
      destruct (String.eqb_spec m n) as [-> |]; [contradiction Hne |];
        reflexivity.
    + destruct (key_eqb k (KName n)); [reflexivity | exact IH].
Qed.

Lemma assign_all_absent (n : string) (ns : list string) :
  forall (vs : list value) (d : pydict value),
    ~ In n ns ->
    dict_get (KName n) (assign_all ns vs d) = dict_get (KName n) d.
Proof.
  induction ns as [| m ns IH]; intros vs d Hfresh; simpl; [reflexivity |].
  destruct vs as [| v vs]; simpl; [reflexivity |].
  rewrite IH by (intros Hin; apply Hfresh; right; exact Hin).
  apply dict_get_set_other. intros ->. apply Hfresh. left. reflexivity.
Qed.

Lemma assign_all_last (ns : list string) :
  forall (i : nat) (n : string) (v : value) (vs : list value)
         (d : pydict value),
    nth_error ns i = Some n ->
    nth_error vs i = Some v ->
    (forall j, (i < j)%nat -> nth_error ns j <> Some n) ->
    dict_get (KName n) (assign_all ns vs d) = Some v.
Proof.
  induction ns as [| m ns IH]; intros i n v vs d Hn Hv Hlast.
  - destruct i; discriminate Hn.
  - destruct vs as [| w vs]; [destruct i; discriminate Hv |].
    destruct i as [| i]; simpl in Hn, Hv |- *.
    + injection Hn as ->. injection Hv as ->.
      rewrite assign_all_absent; [apply dict_get_set_name |].
      intros Hin. apply In_nth_error in Hin as (j & Hj).
      apply (Hlast (S j)); [lia | exact Hj].
    + apply (IH i n v vs _ Hn Hv).
      intros j Hij. apply (Hlast (S j)). lia.
Qed.

Section Decoded.

Variable columns : list KustoResultColumn.
Variable names : list string.
Hypothesis columns_typed :
  Forall (fun c => exists t, column_type c = JStr t) columns.
Hypothesis columns_named : map column_name columns = map JStr names.

(** The loop of [__init__] from position [k] on: the values it appends by
    position are the values it assigns under the names of their columns. *)
Lemma loop_assigns (cells : list json) :
  forall (k : nat) (self r : KustoResultRow),
    foldM (decode_cell columns) (combine (seq k (length cells)) cells) self
    = Ok r ->
    exists vs,
      length vs = length cells
      /\ _value_by_index r = _value_by_index self ++ vs
      /\ _value_by_name r
         = assign_all (firstn (length cells) (skipn k names)) vs
                      (_value_by_name self).
Proof.
  induction cells as [| v cells IH]; intros k self r Hloop; simpl in Hloop.
  - injection Hloop as <-. exists []. simpl.
    rewrite app_nil_r. repeat split.
  - bind_inv Hloop as self1 Ecell.
    destruct (nth_error columns k) as [column |] eqn:Hcol;
      [| unfold decode_cell in Ecell; rewrite Hcol in Ecell;
         discriminate Ecell].
    destruct (@column_at H columns names columns_typed columns_named
                k column Hcol) as (t & n & Ht & Hn & Hnth).
    destruct (@decode_cell_named H columns self self1 k v column t n
                Hcol Ht Hn Ecell)
      as (typed_value & Hby_name & Hby_index).
    destruct (IH (S k) self1 r Hloop) as (vs & Hlen & Hindex & Hname).
    exists (typed_value :: vs). simpl.
    split; [rewrite Hlen; reflexivity |]. split.
    + rewrite Hindex, Hby_index, <- app_assoc. reflexivity.
    + rewrite Hname, Hby_name, (skipn_nth_error _ _ Hnth). reflexivity.
Qed.

(** X5: in a decoded row whose columns declare string types and string
    names, the lookup by the name [n] returns the value at the position of
    the last column named [n]: an assignment under a repeated name
    overwrites the earlier one. When the names are pairwise distinct, the
    lookup by a column's name and the lookup by its position agree for
    every column. *)
Theorem name_lookup_last_column
    (cells : list json) (r : KustoResultRow) (i : nat) (n : string) :
  KustoResultRow_init columns (JList cells) = Ok r ->
  nth_error names i = Some n ->
  (i < length cells)%nat ->
  (forall j, (i < j < length cells)%nat -> nth_error names j <> Some n) ->
  exists v,
    row_getitem r (JInt (Z.of_nat i)) = Ok v
    /\ row_getitem r (JStr n) = Ok v.
Proof.
  intros Hinit Hn Hi Hlast.
  unfold KustoResultRow_init, enumerate in Hinit. simpl in Hinit.
  destruct (loop_assigns _ _ _ Hinit) as (vs & Hlen & Hindex & Hname).
  simpl in Hindex, Hname.
  destruct (nth_error vs i) as [v |] eqn:Hv;
    [| apply nth_error_None in Hv; lia].
  exists v. split.
  - unfold row_getitem. rewrite list_item_nat, Hindex, Hv. reflexivity.
  - unfold row_getitem. simpl. rewrite Hname.
    rewrite (@assign_all_last (firstn (length cells) names) i n v vs []).
    + reflexivity.
    + rewrite nth_error_firstn.
      destruct (Nat.ltb_spec i (length cells)); [exact Hn | lia].
    + exact Hv.
    + intros j Hij. rewrite nth_error_firstn.
      destruct (Nat.ltb_spec j (length cells)); [| discriminate].
      apply Hlast. lia.
Qed.

(** X6: in a decoded row whose columns declare string types and string
    names, the lookup by a name that no column has raises KeyError. *)
Theorem unknown_name_lookup
    (cells : list json) (r : KustoResultRow) (n : string) :
  KustoResultRow_init columns (JList cells) = Ok r ->
  ~ In n names ->
  row_getitem r (JStr n) = Raise KeyError.
Proof.
  intros Hinit Hfresh.
  unfold KustoResultRow_init, enumerate in Hinit. simpl in Hinit.
  destruct (loop_assigns _ _ _ Hinit) as (vs & _ & _ & Hname).
  simpl in Hname.
  unfold row_getitem. simpl. rewrite Hname.
  rewrite assign_all_absent; [reflexivity |].
  intros Hin. apply Hfresh. exact (in_firstn _ _ _ Hin).
Qed.

End Decoded.

End NameLookup.

(** ** The structure of a constructed table *)

Section TableStructure.

Context {H : Host}.

Local Notation json := (json float).
Local Notation exn := (pyexn float).
Local Notation M := (result exn).

Lemma mapM_length {A B} (f : A -> M B) (l : list A) :
  forall l', mapM f l = Ok l' -> length l' = length l.
Proof.
  induction l as [| a l IH]; simpl; intros l' Hmap.
  - injection Hmap as <-. reflexivity.
  - bind_inv Hmap as b Eb. bind_inv Hmap as bs Ebs. injection Hmap as <-.
    simpl. rewrite (IH _ Ebs). reflexivity.
Qed.

Lemma mapM_nth {A B} (f : A -> M B) (l : list A) :
  forall l' i a,
    mapM f l = Ok l' ->
    nth_error l i = Some a ->
    exists b, nth_error l' i = Some b /\ f a = Ok b.
Proof.
  induction l as [| x l IH]; simpl; intros l' i a Hmap Hnth.
  - destruct i; discriminate Hnth.
  - bind_inv Hmap as b Eb. bind_inv Hmap as bs Ebs. injection Hmap as <-.
    destruct i as [| i]; simpl in Hnth |- *.
    + injection Hnth as <-. exists b. split; [reflexivity | exact Eb].
    + exact (IH _ _ _ Ebs Hnth).
Qed.

Lemma nth_error_enumerate {A} (l : list A) :
  forall k i a,
    nth_error l i = Some a ->
    nth_error (combine (seq k (length l)) l) i = Some ((k + i)%nat, a).
Proof.
  induction l as [| x l IH]; intros k i a Hnth.
  - destruct i; discriminate Hnth.
  - destruct i as [| i]; simpl in Hnth |- *.
    + injection Hnth as <-. rewrite Nat.add_0_r. reflexivity.
    + rewrite (IH (S k) i a Hnth). f_equal. f_equal. lia.
Qed.

(** What a decoded header is made of. *)
Lemma table_header_inv (d : list (string * json)) name id kind cols :
  table_header (JDict d) = Ok (name, id, kind, cols) ->
  exists raw raw_columns,
    assoc "Columns" d = Some raw
    /\ py_iter raw = Ok raw_columns
    /\ mapM (fun ic => KustoResultColumn_init (snd ic) (fst ic))
            (enumerate raw_columns) = Ok cols.
Proof.
  unfold table_header. intros E.
  bind_inv E as name' Ename. bind_inv E as id' Eid.
  bind_inv E as kind' Ekind.
  bind_inv E as raw Eraw. bind_inv E as raw_columns Eiter.
  bind_inv E as cols' Ecols. injection E as _ _ _ <-.
  exists raw, raw_columns. split; [| split; assumption].
  simpl in Eraw. destruct (assoc "Columns" d); [| discriminate Eraw].
  injection Eraw as ->. reflexivity.
Qed.

Lemma column_init_inv (json_column : json) (i : nat) (c : KustoResultColumn) :
  KustoResultColumn_init json_column i = Ok c ->
  ordinal c = i /\ subscript_str json_column "ColumnName" = Ok (column_name c).
Proof.
  unfold KustoResultColumn_init. intros E.
  bind_inv E as name Ename. bind_inv E as declared Edeclared.
  bind_inv E as type Etype. injection E as <-. simpl.
  split; [reflexivity | exact Ename].
Qed.

(** X7: a table is only constructed from a JSON object that has the keys
    ["Columns"] and ["Rows"] and holds no error object among its rows. *)
Theorem table_requires_keys (json_table : json) (t : KustoResultTable) :
  KustoResultTable_init json_table = Ok t ->
  exists d raw_columns raw raw_rows,
    json_table = JDict d
    /\ assoc "Columns" d = Some raw_columns
    /\ assoc "Rows" d = Some raw
    /\ py_iter raw = Ok raw_rows
    /\ forallb (fun row => negb (is_dict row)) raw_rows = true.
Proof.
  intros Hinit.
  apply table_init_inv in Hinit
    as (name & id & kind & cols & raw & raw_rows & rs
        & Hh & Hraw & Hiter & Hfilter & _ & _).
  destruct json_table as [| b | z | f | s | l | d]; try discriminate Hraw.
  apply table_header_inv in Hh as (raw_columns & _ & Hcolumns & _ & _).
  simpl in Hraw. destruct (assoc "Rows" d) as [raw' |] eqn:Hrows;
    [| discriminate Hraw].
  injection Hraw as ->.
  exists d, raw_columns, raw, raw_rows.
  repeat split; try assumption.
  clear - Hfilter. induction raw_rows as [| row raw_rows IH]; simpl in *;
    [reflexivity |].
  destruct (is_dict row); [discriminate Hfilter |]. simpl. exact (IH Hfilter).
Qed.

(** X8: when the header decodes and the key ["Rows"] is missing, or when
    the kind is absent or recognised and the key ["Columns"] is missing,
    the constructor raises KeyError. *)
Theorem missing_key_raises (d : list (string * json)) :
  match assoc "TableKind" d with
  | Some k => exists m, enum_by_name k = Ok m
  | None => True
  end ->
  assoc "Columns" d = None
  \/ ((exists header, table_header (JDict d) = Ok header)
      /\ assoc "Rows" d = None) ->
  KustoResultTable_init (JDict d) = Raise KeyError.
Proof.
  intros Hkind [Hcolumns | [(header & Hheader) Hrows]].
  - unfold KustoResultTable_init, table_header. simpl.
    destruct (assoc "TableKind" d) as [k |].
    + destruct Hkind as (m & ->). simpl. rewrite Hcolumns. reflexivity.
    + simpl. rewrite Hcolumns. reflexivity.
  - unfold KustoResultTable_init. rewrite Hheader.
    destruct header as [[[name id] kind] cols]. simpl.
    rewrite Hrows. reflexivity.
Qed.

(** X9: a ["TableKind"] string that names no member of the enum makes the
    constructor raise KeyError, whatever the columns and rows of the
    document are. *)
Theorem unknown_table_kind (d : list (string * json)) (s : string) :
  assoc "TableKind" d = Some (JStr s) ->
  (forall m, enum_value m <> s) ->
  KustoResultTable_init (JDict d) = Raise KeyError.
Proof.
  intros Hkind Hunknown.
  unfold KustoResultTable_init, table_header. simpl. rewrite Hkind.
  unfold enum_by_name.
  destruct (String.eqb_spec s "PrimaryResult") as [-> |];
    [exfalso; exact (Hunknown PrimaryResult eq_refl) |].
  destruct (String.eqb_spec s "QueryCompletionInformation") as [-> |];
    [exfalso; exact (Hunknown QueryCompletionInformation eq_refl) |].
  destruct (String.eqb_spec s "TableOfContents") as [-> |];
    [exfalso; exact (Hunknown TableOfContents eq_refl) |].
  destruct (String.eqb_spec s "QueryProperties") as [-> |];
    [exfalso; exact (Hunknown QueryProperties eq_refl) |].
  reflexivity.
Qed.

(** X10: looking a member up by name and reading its value are inverse to
    each other: a string names a member exactly when it is that member's
    value. *)
Theorem enum_name_value (s : string) (m : WellKnownDataSet) :
  enum_by_name (JStr s : json) = Ok m <-> enum_value m = s.
Proof.
  split.
  - apply enum_by_name_value.
  - intros <-. destruct m; reflexivity.
Qed.

(** X11: the rows of a constructed table are the decodings of the raw
    rows, in the order of the document and against the table's own
    columns; there are as many rows as raw rows. *)
Theorem rows_in_document_order
    (d : list (string * json)) (raw_rows : list json)
    (t : KustoResultTable) :
  KustoResultTable_init (JDict d) = Ok t ->
  assoc "Rows" d = Some (JList raw_rows) ->
  rows_count t = length raw_rows
  /\ forall i raw_row,
       nth_error raw_rows i = Some raw_row ->
       exists row,
         nth_error (rows t) i = Some row
         /\ KustoResultRow_init (columns t) raw_row = Ok row.
Proof.
  intros Hinit Hrows.
  apply table_init_inv in Hinit
    as (name & id & kind & cols & raw & raw_rows' & rs
        & _ & Hraw & Hiter & _ & Hmap & ->).
  simpl in Hraw. rewrite Hrows in Hraw. injection Hraw as <-.
  simpl in Hiter. injection Hiter as <-.
  unfold rows_count. simpl. split.
  - exact (mapM_length _ _ Hmap).
  - intros i raw_row Hnth. exact (mapM_nth _ _ _ Hmap Hnth).
Qed.

(** X12: the columns of a constructed table are built from the column
    metadata in the order of the document: there are as many, the
    descriptor at position [i] has ordinal [i] and the name found under
    ["ColumnName"] in the metadata at position [i]. *)
Theorem columns_in_document_order
    (d : list (string * json)) (raw_columns : list json)
    (t : KustoResultTable) :
  KustoResultTable_init (JDict d) = Ok t ->
  assoc "Columns" d = Some (JList raw_columns) ->
  table_columns_count t = length raw_columns
  /\ forall i json_column,
       nth_error raw_columns i = Some json_column ->
       exists column,
         nth_error (columns t) i = Some column
         /\ ordinal column = i
         /\ subscript_str json_column "ColumnName" = Ok (column_name column).
Proof.
  intros Hinit Hcolumns.
  apply table_init_inv in Hinit
    as (name & id & kind & cols & raw & raw_rows & rs
        & Hh & _ & _ & _ & _ & ->).
  apply table_header_inv in Hh as (raw' & raw_columns' & Hraw & Hiter & Hmap).
  rewrite Hcolumns in Hraw. injection Hraw as <-.
  simpl in Hiter. injection Hiter as <-.
  unfold table_columns_count. simpl. split.
  - rewrite (mapM_length _ _ Hmap). unfold enumerate.
    rewrite length_combine, length_seq. lia.
  - intros i json_column Hnth.
    pose proof (nth_error_enumerate raw_columns 0 i Hnth) as Henum.
    destruct (mapM_nth _ _ _ Hmap Henum) as (column & Hcol & Hbuilt).
    simpl in Hbuilt. apply column_init_inv in Hbuilt as [Hord Hname].
    exists column. repeat split; assumption.
Qed.

(** X13: when the first error object among the rows lacks the nested
    message, the exception of the failed lookup is raised in place of the
    service error. *)
Theorem malformed_error_object
    (json_table : json) header (before after : list json)
    (first : json) (e : exn) :
  table_header json_table = Ok header ->
  subscript_str json_table "Rows" = Ok (JList (before ++ first :: after)) ->
  forallb (fun row => negb (is_dict row)) before = true ->
  is_dict first = true ->
  error_message first = Raise e ->
  KustoResultTable_init json_table = Raise e.
Proof.
  intros Hheader Hrows Hbefore Hfirst Hmessage.
  unfold KustoResultTable_init.
  rewrite Hheader. destruct header as [[[name id] kind] cols]. simpl.
  rewrite Hrows. simpl.
  assert (Hfilter : filter is_dict (before ++ first :: after)
                    = first :: filter is_dict after).
  { clear - Hbefore Hfirst. induction before as [| row before IH]; simpl.
    - rewrite Hfirst. reflexivity.
    - simpl in Hbefore. apply andb_true_iff in Hbefore as [Hrow Hbefore].
      apply negb_true_iff in Hrow. rewrite Hrow. exact (IH Hbefore). }
  rewrite Hfilter, Hmessage. reflexivity.
Qed.

End TableStructure.

(** ** Rows that need no converter *)

Section PlainRowProperties.

Context {H : Host}.

Local Notation json := (json float).
Local Notation M := (result (pyexn float)).

#[local] Arguments decode_cell : simpl never.

Lemma decode_cell_plain
    (columns : list KustoResultColumn) (self : KustoResultRow)
    (i : nat) (v : json) :
  plain_cell columns (i, v) = true ->
  exists k,
    decode_cell columns self (i, v)
    = Ok {| _value_by_name := dict_set k (VJson v) (_value_by_name self);
            _value_by_index := _value_by_index self ++ [VJson v];
            _hidden_values :=
              if keep_high_precision_values
              then _hidden_values self ++ [VJson v]
              else _hidden_values self;
            _seventh_digit := _seventh_digit self |}.
Proof.
  unfold plain_cell, decode_cell. simpl.
  destruct (nth_error columns i) as [column |]; [| discriminate].
  destruct (column_type column) as [| b | z | f | declared | l | d];
    try discriminate.
  destruct (column_name column) as [| b | z | f | name | l | d];
    try discriminate.
  exists (KName name). simpl.
  destruct (String.eqb (PyStr.lower declared) "datetime"
            || String.eqb (PyStr.lower declared) "timespan").
  - destruct v; try discriminate. simpl.
    destruct keep_high_precision_values; reflexivity.
  - destruct (convertion_funcs (PyStr.lower declared)); [discriminate |].
    simpl. destruct keep_high_precision_values; reflexivity.
Qed.

Lemma loop_plain (columns : list KustoResultColumn) (cells : list json) :
  forall (k : nat) (self : KustoResultRow),
    forallb (plain_cell columns) (combine (seq k (length cells)) cells)
    = true ->
    exists r,
      foldM (decode_cell columns) (combine (seq k (length cells)) cells) self
      = Ok r
      /\ _value_by_index r = _value_by_index self ++ map VJson cells
      /\ _hidden_values r
         = (if keep_high_precision_values
            then _hidden_values self ++ map VJson cells
            else _hidden_values self)
      /\ _seventh_digit r = _seventh_digit self.
Proof.
  induction cells as [| v cells IH]; intros k self Hplain; simpl in *.
  - exists self. rewrite !app_nil_r.
    destruct keep_high_precision_values; repeat split.
  - apply andb_true_iff in Hplain as [Hcell Hrest].
    destruct (decode_cell_plain columns self k v Hcell) as (key & ->).
    simpl.
    match goal with
    | |- context [foldM _ _ ?self1] =>
        destruct (IH (S k) self1 Hrest)
          as (r & -> & Hindex & Hhidden & Hdigits)
    end.
    exists r. simpl in Hindex, Hhidden, Hdigits.
    split; [reflexivity |]. split.
    + rewrite Hindex, <- app_assoc. reflexivity.
    + split; [| exact Hdigits]. rewrite Hhidden.
      destruct keep_high_precision_values; [| reflexivity].
      rewrite <- app_assoc. reflexivity.
Qed.

(** X14: a row in which every cell is plain (its column has no converter,
    or is temporal and the raw value is null) is always decoded, on every
    host and whatever the converters would do: its values are the raw
    values unchanged, its side values are the raw values when high
    precision is kept, and no seventh digit is recorded. *)
Theorem plain_row_passes_through
    (columns : list KustoResultColumn) (cells : list json) :
  plain_row columns cells = true ->
  exists r,
    KustoResultRow_init columns (JList cells) = Ok r
    /\ row_to_list r = map VJson cells
    /\ _hidden_values r
       = (if keep_high_precision_values then map VJson cells else [])
    /\ _seventh_digit r = [].
Proof.
  unfold plain_row, enumerate. intros Hplain.
  destruct (loop_plain columns cells 0 empty_row Hplain)
    as (r & Hloop & Hindex & Hhidden & Hdigits).
  exists r. unfold KustoResultRow_init, enumerate. simpl.
  split; [exact Hloop |]. split; [exact Hindex |].
  split; [| exact Hdigits].
  rewrite Hhidden. simpl. destruct keep_high_precision_values; reflexivity.
Qed.

End PlainRowProperties.

(** ** Temporal texts by their shape *)

Section TemporalShapes.

Context {H : Host}.

Local Notation json := (json float).
Local Notation exn := (pyexn float).
Local Notation M := (result exn).

#[local] Arguments PyStr.drop_last : simpl never.
#[local] Arguments _get_precise_repr : simpl never.

Lemma last_nonempty (s : string) :
  s <> ""%string -> exists c, PyStr.last s = Some c.
Proof.
  induction s as [| x s IH]; intros Hne; [contradiction Hne; reflexivity |].
  destruct s as [| y s]; simpl.
  - exists x. reflexivity.
  - apply IH. discriminate.
Qed.

Lemma append_nonempty (a b : string) (c : ascii) :
  (a ++ String c b)%string <> ""%string.
Proof. destruct a; discriminate. Qed.

Lemma isalpha_not_sep (c sep : ascii) :
  PyStr.isalpha c = true -> PyStr.isalpha sep = false ->
  Ascii.eqb c sep = false.
Proof.
  intros Hc Hsep. destruct (Ascii.eqb_spec c sep) as [-> |]; [| reflexivity].
  rewrite Hc in Hsep. discriminate Hsep.
Qed.

Lemma drop_last_pair (a : string) (c z : ascii) :
  PyStr.drop_last 2 (a ++ String c (String z "")) = a.
Proof.
  unfold PyStr.drop_last. rewrite length_append. simpl.
  replace (String.length a + 2 - 2)%nat with (String.length a) by lia.
  apply substring_prefix.
Qed.

Lemma convert_datetime (v : json) :
  convert "datetime" v = (d <- to_datetime v ;; Ok (VDatetime d)).
Proof. reflexivity. Qed.

Lemma precise_repr_datetime_digit
    (raw : string) (typed_value : value) (fractions : option string)
    (suffix : string) (n : nat) (c : ascii) :
  PyStr.isdigit c = true ->
  _get_precise_repr "datetime" (JStr raw) typed_value
    {| seconds_fractions_part := fractions; last := suffix;
       lookback := Some n; seventh_char := Some c |}
  = Ok (JStr (PyStr.drop_last n raw ++ PyStr.of_char c ++ "00" ++ suffix)%string).
Proof.
  intros Hc. unfold _get_precise_repr. simpl. rewrite Hc. reflexivity.
Qed.

(** The fraction field the decoder finds in [date:mm:ss.f]. *)
Lemma fraction_field (date mm ss f : string) :
  PyStr.no_char ":" date = true ->
  PyStr.no_char ":" mm = true ->
  PyStr.no_char ":" ss = true ->
  PyStr.no_char "." ss = true ->
  PyStr.no_char ":" f = true ->
  PyStr.no_char "." f = true ->
  fractions_of (JStr (date ++ ":" ++ mm ++ ":" ++ ss ++ "." ++ f)%string : json)
  = Ok f.
Proof.
  intros Hdate Hmm Hss_colon Hss_dot Hf_colon Hf_dot.
  unfold fractions_of. simpl.
  rewrite split_at_first by exact Hdate.
  rewrite split_at_first by exact Hmm.
  rewrite split_without.
  - simpl. rewrite split_at_first by exact Hss_dot.
    rewrite split_without by exact Hf_dot. reflexivity.
  - rewrite no_char_append. simpl. rewrite Hss_colon, Hf_colon. reflexivity.
Qed.

(** X15: a row of one [datetime] column whose raw text [date:mm:ss.f] has
    no digit as seventh character of its fraction field [f] (the field is
    shorter, or the character there is an ASCII character other than a
    digit, such as a zone letter or a sign) is decoded by converting the
    whole text; no digit is recorded, and with high precision kept the
    side value is the raw text unchanged. *)
Theorem datetime_without_seventh_digit
    (declared name date mm ss f : string) (d : datetime) :
  PyStr.lower declared = "datetime" ->
  PyStr.no_char ":" date = true ->
  PyStr.no_char ":" mm = true ->
  PyStr.all_digits ss = true ->
  PyStr.no_char ":" f = true ->
  PyStr.no_char "." f = true ->
  match PyStr.index 6 f with
  | Some c => (nat_of_ascii c < 48 \/ 57 < nat_of_ascii c < 128)%nat
  | None => True
  end ->
  let raw := (date ++ ":" ++ mm ++ ":" ++ ss ++ "." ++ f)%string in
  to_datetime (JStr raw) = Ok d ->
  KustoResultRow_init
    [{| column_name := JStr name; column_type := JStr declared;
        ordinal := 0 |}]
    (JList [JStr raw])
  = Ok {| _value_by_name := [(KName name, VDatetime d)];
          _value_by_index := [VDatetime d];
          _hidden_values :=
            if keep_high_precision_values then [VJson (JStr raw)] else [];
          _seventh_digit := [] |}.
Proof.
  intros Hdt Hdate Hmm Hss Hf_colon Hf_dot Hplain raw Hconv.
  assert (Hseventh : match PyStr.index 6 f with
                     | Some c => PyStr.isdigit c = false
                     | None => True
                     end).
  { destruct (PyStr.index 6 f) as [c |]; [| exact I].
    unfold PyStr.isdigit. apply andb_false_iff.
    destruct Hplain as [Hlow | [Hhigh _]];
      [left | right]; apply Nat.leb_gt; lia. }
  clear Hplain.
  assert (Hcolon : PyStr.isdigit ":" = false) by reflexivity.
  assert (Hdot : PyStr.isdigit "." = false) by reflexivity.
  assert (Hss_colon : PyStr.no_char ":" ss = true)
    by (apply all_digits_no_sep; assumption).
  assert (Hss_dot : PyStr.no_char "." ss = true)
    by (apply all_digits_no_sep; assumption).
  pose proof (fraction_field date mm ss f Hdate Hmm Hss_colon Hss_dot
                Hf_colon Hf_dot) as Hfrac.
  fold raw in Hfrac.
  assert (Hsuffix : exists suffix, trailing_letter (JStr raw : json) = Ok suffix).
  { unfold trailing_letter.
    destruct (@last_nonempty raw) as (c & ->).
    - unfold raw. apply append_nonempty.
    - eexists. reflexivity. }
  destruct Hsuffix as (suffix & Hsuffix).
  unfold KustoResultRow_init. simpl. rewrite Hdt. simpl.
  unfold decode_temporal. fold raw. rewrite Hsuffix. simpl.
  unfold try_precision. rewrite Hfrac. unfold seventh_of.
  destruct (PyStr.index 6 f) as [c |].
  - rewrite Hseventh. unfold convert. simpl. rewrite Hconv. simpl.
    unfold _get_precise_repr. simpl. rewrite Hseventh.
    destruct keep_high_precision_values; reflexivity.
  - simpl. unfold convert. simpl. rewrite Hconv. simpl.
    unfold _get_precise_repr. simpl.
    destruct keep_high_precision_values; reflexivity.
Qed.

(** X16: a row of one [datetime] column whose raw text
    [date:mm:ss.ffffffcz] has seven fractional digits and a trailing
    letter [z] is decoded to the timestamp that the converter gives for the
    text without the seventh digit [c], the letter kept; the digit is
    recorded unless it is zero; and with high precision kept the side value
    is the raw text with ["00"] put between the seventh digit and the
    letter. *)
Theorem datetime_seventh_digit_with_suffix
    (declared name date mm ss six : string) (c z : ascii) (d : datetime) :
  PyStr.lower declared = "datetime" ->
  PyStr.no_char ":" date = true ->
  PyStr.no_char ":" mm = true ->
  PyStr.all_digits ss = true ->
  PyStr.all_digits six = true ->
  String.length six = 6%nat ->
  PyStr.isdigit c = true ->
  PyStr.isalpha z = true ->
  let truncated := (date ++ ":" ++ mm ++ ":" ++ ss ++ "." ++ six)%string in
  to_datetime (JStr (truncated ++ String z "")%string) = Ok d ->
  KustoResultRow_init
    [{| column_name := JStr name; column_type := JStr declared;
        ordinal := 0 |}]
    (JList [JStr (truncated ++ String c (String z ""))%string])
  = Ok {| _value_by_name := [(KName name, VDatetime d)];
          _value_by_index := [VDatetime d];
          _hidden_values :=
            if keep_high_precision_values
            then [VJson (JStr (truncated ++ String c "00" ++ String z "")%string)]
            else [];
          _seventh_digit :=
            if Z.eqb (PyStr.digit_value c) 0 then []
            else [(KName name, PyStr.digit_value c)] |}.
Proof.
  intros Hdt Hdate Hmm Hss Hsix Hlen Hc Hz truncated Hconv.
  set (raw := (truncated ++ String c (String z ""))%string).
  assert (Hcolon : PyStr.isdigit ":" = false) by reflexivity.
  assert (Hdot : PyStr.isdigit "." = false) by reflexivity.
  assert (Hss_colon : PyStr.no_char ":" ss = true)
    by (apply all_digits_no_sep; assumption).
  assert (Hss_dot : PyStr.no_char "." ss = true)
    by (apply all_digits_no_sep; assumption).
  assert (Hfield : forall sep,
             PyStr.isdigit sep = false -> PyStr.isalpha sep = false ->
             PyStr.no_char sep (six ++ String c (String z "")) = true).
  { intros sep Hsep_digit Hsep_alpha. rewrite no_char_append. simpl.
    rewrite (@all_digits_no_sep sep six Hsep_digit Hsix).
    rewrite (@isdigit_not_sep c sep Hc Hsep_digit).
    rewrite (@isalpha_not_sep z sep Hz Hsep_alpha). reflexivity. }
  assert (Hraw : raw = (date ++ ":" ++ mm ++ ":" ++ ss ++ "."
                        ++ six ++ String c (String z ""))%string).
  { unfold raw, truncated. repeat rewrite append_assoc. reflexivity. }
  assert (Hfrac : fractions_of (JStr raw : json)
                  = Ok (six ++ String c (String z ""))%string).
  { rewrite Hraw. apply fraction_field; try assumption.
    - apply Hfield; reflexivity.
    - apply Hfield; reflexivity. }
  assert (Hseventh : seventh_of (six ++ String c (String z "")) = Ok c).
  { unfold seventh_of. rewrite <- Hlen, index_after. reflexivity. }
  assert (Hsuffix : trailing_letter (JStr raw : json) = Ok (PyStr.of_char z)).
  { unfold trailing_letter, raw.
    replace (truncated ++ String c (String z ""))%string
      with ((truncated ++ String c "") ++ String z "")%string
      by (rewrite append_assoc; reflexivity).
    rewrite last_append_char, Hz. reflexivity. }
  unfold KustoResultRow_init. simpl. rewrite Hdt. simpl.
  unfold decode_temporal. fold raw. rewrite Hsuffix. simpl.
  rewrite try_precision_digit
    with (frac := (six ++ String c (String z ""))%string) (c := c)
    by assumption.
  assert (Hlook : lookback_of (PyStr.of_char z) = 2%nat) by reflexivity.
  assert (Hdrop : PyStr.drop_last 2 raw = truncated)
    by (unfold raw; apply drop_last_pair).
  unfold truncated_text. rewrite Hlook, Hdrop.
  change (PyStr.of_char z) with (String z "").
  rewrite convert_datetime, Hconv.
  destruct (Z.eqb (PyStr.digit_value c) 0); simpl;
    destruct keep_high_precision_values; try reflexivity;
    rewrite precise_repr_datetime_digit by exact Hc;
    rewrite Hdrop; reflexivity.
Qed.

(** X17: a row of one [timespan] column whose raw text [hh:mm:ss.ffffffc]
    has seven fractional digits is decoded to the duration that the
    converter gives for the text without the seventh digit [c]; the digit
    is recorded with the sign of that duration unless it is zero; and with
    high precision kept the side value is the float read from the whole
    seconds of the duration, a point and all seven fractional digits. *)
Theorem timespan_seventh_digit_row
    (declared name hh mm ss six : string) (c : ascii) (td : timedelta)
    (seconds : float) :
  PyStr.lower declared = "timespan" ->
  PyStr.no_char ":" hh = true ->
  PyStr.no_char ":" mm = true ->
  PyStr.all_digits ss = true ->
  PyStr.all_digits six = true ->
  String.length six = 6%nat ->
  PyStr.isdigit c = true ->
  let truncated := (hh ++ ":" ++ mm ++ ":" ++ ss ++ "." ++ six)%string in
  to_timedelta (JStr truncated) = Ok td ->
  float_of_str (PyStr.of_Z (int_of_float (total_seconds td))
                ++ "." ++ six ++ String c "")%string = Ok seconds ->
  KustoResultRow_init
    [{| column_name := JStr name; column_type := JStr declared;
        ordinal := 0 |}]
    (JList [JStr (truncated ++ String c "")%string])
  = Ok {| _value_by_name := [(KName name, VTimedelta td)];
          _value_by_index := [VTimedelta td];
          _hidden_values :=
            if keep_high_precision_values
            then [VJson (JFloat seconds)] else [];
          _seventh_digit :=
            if Z.eqb (PyStr.digit_value c) 0 then []
            else [(KName name,
                   if (td <? 0)%Z then (- PyStr.digit_value c)%Z
                   else PyStr.digit_value c)] |}.
Proof.
  intros Hts Hhh Hmm Hss Hsix Hlen Hc truncated Hconv Hfloat.
  simpl in Hfloat.
  destruct (@seven_digit_fields H hh mm ss six c Hhh Hmm Hss Hsix Hlen Hc)
    as (Hfrac & Hseventh & Hsuffix & Hdrop).
  fold truncated in Hfrac, Hsuffix, Hdrop.
  unfold KustoResultRow_init. simpl. rewrite Hts. simpl.
  unfold decode_temporal. rewrite Hsuffix. simpl.
  rewrite try_precision_digit with (frac := (six ++ String c "")%string) (c := c)
    by assumption.
  unfold truncated_text, lookback_of. simpl.
  rewrite Hdrop, append_empty_r.
  unfold convert. simpl. rewrite Hconv. simpl.
  rewrite timedelta_is_abs_sign.
  assert (Hnonempty : String.eqb (six ++ String c "") "" = false).
  { destruct six; reflexivity. }
  destruct (Z.eqb (PyStr.digit_value c) 0); simpl;
    unfold _get_precise_repr; simpl; rewrite Hnonempty;
    destruct keep_high_precision_values; simpl;
    try rewrite Hfloat; simpl; destruct (td <? 0)%Z; reflexivity.
Qed.

(** X20: with eight fractional digits [date:mm:ss.ffffffce] and no
    trailing letter, the decoder still takes the seventh digit [c] as the
    tick but cuts the last character [e] off the text: the converter is
    given the text with seven fractional digits, and with high precision
    kept the side value is that text followed by the seventh digit again
    and ["00"]. *)
Theorem datetime_eight_digits
    (declared name date mm ss six : string) (c e : ascii) (d : datetime) :
  PyStr.lower declared = "datetime" ->
  PyStr.no_char ":" date = true ->
  PyStr.no_char ":" mm = true ->
  PyStr.all_digits ss = true ->
  PyStr.all_digits six = true ->
  String.length six = 6%nat ->
  PyStr.isdigit c = true ->
  PyStr.isdigit e = true ->
  let seven :=
    (date ++ ":" ++ mm ++ ":" ++ ss ++ "." ++ six ++ String c "")%string in
  to_datetime (JStr seven) = Ok d ->
  KustoResultRow_init
    [{| column_name := JStr name; column_type := JStr declared;
        ordinal := 0 |}]
    (JList [JStr (seven ++ String e "")%string])
  = Ok {| _value_by_name := [(KName name, VDatetime d)];
          _value_by_index := [VDatetime d];
          _hidden_values :=
            if keep_high_precision_values
            then [VJson (JStr (seven ++ String c "00")%string)]
            else [];
          _seventh_digit :=
            if Z.eqb (PyStr.digit_value c) 0 then []
            else [(KName name, PyStr.digit_value c)] |}.
Proof.
  intros Hdt Hdate Hmm Hss Hsix Hlen Hc He seven Hconv.
  set (raw := (seven ++ String e "")%string).
  assert (Hcolon : PyStr.isdigit ":" = false) by reflexivity.
  assert (Hdot : PyStr.isdigit "." = false) by reflexivity.
  assert (Hss_colon : PyStr.no_char ":" ss = true)
    by (apply all_digits_no_sep; assumption).
  assert (Hss_dot : PyStr.no_char "." ss = true)
    by (apply all_digits_no_sep; assumption).
  assert (Hfield : forall sep,
             PyStr.isdigit sep = false ->
             PyStr.no_char sep (six ++ String c (String e "")) = true).
  { intros sep Hsep. rewrite no_char_append. simpl.
    rewrite (@all_digits_no_sep sep six Hsep Hsix).
    rewrite (@isdigit_not_sep c sep Hc Hsep).
    rewrite (@isdigit_not_sep e sep He Hsep). reflexivity. }
  assert (Hraw : raw = (date ++ ":" ++ mm ++ ":" ++ ss ++ "."
                        ++ six ++ String c (String e ""))%string).
  { unfold raw, seven. repeat rewrite append_assoc. reflexivity. }
  assert (Hfrac : fractions_of (JStr raw : json)
                  = Ok (six ++ String c (String e ""))%string).
  { rewrite Hraw. apply fraction_field; try assumption; apply Hfield;
      reflexivity. }
  assert (Hseventh : seventh_of (six ++ String c (String e "")) = Ok c).
  { unfold seventh_of. rewrite <- Hlen, index_after. reflexivity. }
  assert (Hsuffix : trailing_letter (JStr raw : json) = Ok "").
  { unfold trailing_letter, raw.
    rewrite last_append_char, (isdigit_not_alpha _ He). reflexivity. }
  assert (Hdrop : PyStr.drop_last 1 raw = seven)
    by (unfold raw; apply drop_last_append_char).
  unfold KustoResultRow_init. simpl. rewrite Hdt. simpl.
  unfold decode_temporal. fold raw. rewrite Hsuffix. simpl.
  rewrite try_precision_digit
    with (frac := (six ++ String c (String e ""))%string) (c := c)
    by assumption.
  assert (Hlook : lookback_of "" = 1%nat) by reflexivity.
  unfold truncated_text. rewrite Hlook, Hdrop, append_empty_r.
  rewrite convert_datetime, Hconv.
  destruct (Z.eqb (PyStr.digit_value c) 0); simpl;
    destruct keep_high_precision_values; try reflexivity;
    rewrite precise_repr_datetime_digit by exact Hc;
    rewrite Hdrop; reflexivity.
Qed.

End TemporalShapes.

(** ** The seventh digit by the shape of the text *)

Section SeventhDigit.

Context {H : Host}.

Local Notation json := (json float).
Local Notation exn := (pyexn float).
Local Notation M := (result exn).

#[local] Arguments PyStr.drop_last : simpl never.

(** The character of the decimal digit [n]. *)
Lemma digit_character (n : nat) :
  (n <= 9)%nat ->
  PyStr.isdigit (ascii_of_nat (48 + n)) = true
  /\ PyStr.digit_value (ascii_of_nat (48 + n)) = Z.of_nat n.
Proof.
  intros Hn. unfold PyStr.isdigit, PyStr.digit_value.
  rewrite nat_ascii_embedding by lia. split.
  - apply andb_true_iff. split; apply Nat.leb_le; lia.
  - f_equal. lia.
Qed.

(** A letter of the alphabet, by its code. *)
Lemma letter_isalpha (z : ascii) :
  (65 <= nat_of_ascii z <= 90 \/ 97 <= nat_of_ascii z <= 122)%nat ->
  PyStr.isalpha z = true.
Proof.
  unfold PyStr.isalpha, PyStr.isupper, PyStr.islower.
  intros [[Hlo Hhi] | [Hlo Hhi]]; apply orb_true_iff; [left | right];
    apply andb_true_iff; split; apply Nat.leb_le; assumption.
Qed.

(** What the decoder finds in [date:mm:ss.ffffffc] followed by nothing or
    by one letter: the fraction field, its seventh character, the trailing
    letter and the text that is converted. *)
Lemma seven_digit_shape
    (date mm ss six : string) (c : ascii) (suffix : string) :
  PyStr.no_char ":" date = true ->
  PyStr.no_char ":" mm = true ->
  PyStr.all_digits ss = true ->
  PyStr.all_digits six = true ->
  String.length six = 6%nat ->
  PyStr.isdigit c = true ->
  suffix = ""%string
  \/ (exists z, PyStr.isalpha z = true /\ suffix = String z "") ->
  let truncated := (date ++ ":" ++ mm ++ ":" ++ ss ++ "." ++ six)%string in
  let raw := (truncated ++ String c suffix)%string in
  fractions_of (JStr raw : json) = Ok (six ++ String c suffix)%string
  /\ seventh_of (six ++ String c suffix) = Ok c
  /\ trailing_letter (JStr raw : json) = Ok suffix
  /\ truncated_text raw suffix = (truncated ++ suffix)%string.
Proof.
  intros Hdate Hmm Hss Hsix Hlen Hc Hsuffix truncated raw.
  assert (Hcolon : PyStr.isdigit ":" = false) by reflexivity.
  assert (Hdot : PyStr.isdigit "." = false) by reflexivity.
  assert (Hss_colon : PyStr.no_char ":" ss = true)
    by (apply all_digits_no_sep; assumption).
  assert (Hss_dot : PyStr.no_char "." ss = true)
    by (apply all_digits_no_sep; assumption).
  assert (Hseventh : seventh_of (six ++ String c suffix) = Ok c).
  { unfold seventh_of. rewrite <- Hlen, index_after. reflexivity. }
  assert (Hraw : raw = (date ++ ":" ++ mm ++ ":" ++ ss ++ "."
                        ++ six ++ String c suffix)%string).
  { unfold raw, truncated. repeat rewrite append_assoc. reflexivity. }
  assert (Hfield : forall sep,
             PyStr.isdigit sep = false -> PyStr.isalpha sep = false ->
             PyStr.no_char sep (six ++ String c suffix) = true).
  { intros sep Hsep_digit Hsep_alpha. rewrite no_char_append. simpl.
    rewrite (@all_digits_no_sep sep six Hsep_digit Hsix).
    rewrite (@isdigit_not_sep c sep Hc Hsep_digit). simpl.
    destruct Hsuffix as [-> | (z & Hz & ->)]; simpl; [reflexivity |].
    rewrite (@isalpha_not_sep z sep Hz Hsep_alpha). reflexivity. }
  assert (Hfrac : fractions_of (JStr raw : json)
                  = Ok (six ++ String c suffix)%string).
  { rewrite Hraw. apply fraction_field; try assumption;
      apply Hfield; reflexivity. }
  split; [exact Hfrac |]. split; [exact Hseventh |].
  destruct Hsuffix as [-> | (z & Hz & ->)].
  - split.
    + unfold trailing_letter, raw.
      rewrite last_append_char, (isdigit_not_alpha _ Hc). reflexivity.
    + unfold truncated_text, raw.
      change (lookback_of "") with 1%nat.
      rewrite drop_last_append_char. reflexivity.
  - split.
    + unfold trailing_letter, raw.
      replace (truncated ++ String c (String z ""))%string
        with ((truncated ++ String c "") ++ String z "")%string
        by (rewrite append_assoc; reflexivity).
      rewrite last_append_char, Hz. reflexivity.
    + unfold truncated_text, raw.
      change (lookback_of (String z "")) with 2%nat.
      rewrite drop_last_pair. reflexivity.
Qed.

(** C4: take a [datetime] or [timespan] cell whose raw text is
    [date:mm:ss.ffffff] followed by the character of a decimal digit [n]
    and then by nothing or by one letter, so that [n] is its seventh
    fractional digit, and let the text without that digit convert. When
    the cell is decoded, [_seventh_digit] is left as it was if [n] is 0;
    otherwise it receives an entry for the column: [n] itself for a
    [datetime], and for a [timespan] [n] negated exactly when the truncated
    duration is negative. The stored number is not zero and lies between
    -9 and 9. *)
Theorem seventh_digit_recorded
    (columns : list KustoResultColumn) (self self' : KustoResultRow)
    (i : nat) (column : KustoResultColumn)
    (declared name date mm ss six : string) (n : nat) (suffix : string)
    (typed : value) :
  nth_error columns i = Some column ->
  column_type column = JStr declared ->
  column_name column = JStr name ->
  PyStr.lower declared = "datetime" \/ PyStr.lower declared = "timespan" ->
  PyStr.no_char ":" date = true ->
  PyStr.no_char ":" mm = true ->
  PyStr.all_digits ss = true ->
  PyStr.all_digits six = true ->
  String.length six = 6%nat ->
  (n <= 9)%nat ->
  suffix = ""%string
  \/ (exists z,
        (65 <= nat_of_ascii z <= 90 \/ 97 <= nat_of_ascii z <= 122)%nat
        /\ suffix = String z "") ->
  let truncated := (date ++ ":" ++ mm ++ ":" ++ ss ++ "." ++ six)%string in
  let raw := (truncated ++ String (ascii_of_nat (48 + n)) suffix)%string in
  convert (PyStr.lower declared) (JStr (truncated ++ suffix)%string)
  = Ok typed ->
  decode_cell columns self (i, JStr raw) = Ok self' ->
  (n = 0%nat -> _seventh_digit self' = _seventh_digit self)
  /\ (n <> 0%nat ->
      (PyStr.lower declared = "datetime" ->
       _seventh_digit self'
       = dict_set (KName name) (Z.of_nat n) (_seventh_digit self))
      /\ (PyStr.lower declared = "timespan" ->
          exists td,
            typed = VTimedelta td
            /\ _seventh_digit self'
               = dict_set (KName name)
                   (if (td <? 0)%Z then (- Z.of_nat n)%Z else Z.of_nat n)
                   (_seventh_digit self))
      /\ exists stored,
           dict_get (KName name) (_seventh_digit self') = Some stored
           /\ (-9 <= stored <= 9)%Z /\ stored <> 0%Z).
Proof.
  intros Hcol Htype Hname Htemporal Hdate Hmm Hss Hsix Hlen Hn Hsuffix
         truncated raw Hconv Hcell.
  destruct (digit_character Hn) as [Hdigit Hvalue].
  assert (Hsuffix' : suffix = ""%string
                     \/ (exists z, PyStr.isalpha z = true
                                   /\ suffix = String z "")).
  { destruct Hsuffix as [-> | (z & Hz & ->)]; [left; reflexivity |].
    right. exists z. split; [exact (letter_isalpha _ Hz) | reflexivity]. }
  destruct (@seven_digit_shape date mm ss six (ascii_of_nat (48 + n)) suffix
              Hdate Hmm Hss Hsix Hlen Hdigit Hsuffix')
    as (Hfrac & Hseventh & Htrailing & Htext).
  fold truncated in Hfrac, Htrailing, Htext.
  fold raw in Hfrac, Htrailing, Htext.
  rewrite <- Htext in Hconv.
  destruct (@seventh_digit_cell H columns self self' i column declared name
              raw (six ++ String (ascii_of_nat (48 + n)) suffix)%string
              (ascii_of_nat (48 + n)) suffix typed
              Hcol Htype Hname Htemporal Hfrac Hseventh Hdigit Htrailing
              Hconv Hcell) as [Hzero Hnonzero].
  rewrite Hvalue in Hzero, Hnonzero.
  split.
  - intros ->. apply Hzero. reflexivity.
  - intros Hne.
    destruct Hnonzero as (stored & Hset & Hget & Hrange & Hstored & Hdt & Hts);
      [lia |].
    split; [| split].
    + intros Hdeclared. rewrite Hset, (Hdt Hdeclared). reflexivity.
    + intros Hdeclared. destruct (Hts Hdeclared) as (td & Htyped & Hsign).
      exists td. split; [exact Htyped |]. rewrite Hset, Hsign. reflexivity.
    + exists stored. repeat split; try assumption; lia.
Qed.

End SeventhDigit.

(** ** Failures that end the decoding *)

Section Failures.

Context {H : Host}.

Local Notation json := (json float).
Local Notation exn := (pyexn float).
Local Notation M := (result exn).

#[local] Arguments decode_cell : simpl never.

Lemma foldM_app {A S} (f : S -> A -> M S) (l1 l2 : list A) :
  forall s, foldM f (l1 ++ l2) s = (s1 <- foldM f l1 s ;; foldM f l2 s1).
Proof.
  induction l1 as [| a l1 IH]; intros s; simpl; [reflexivity |].
  destruct (f s a) as [s' | e]; simpl; [apply IH | reflexivity].
Qed.

Lemma combine_seq_app {A} (l1 l2 : list A) :
  forall k,
    combine (seq k (length (l1 ++ l2))) (l1 ++ l2)
    = combine (seq k (length l1)) l1
      ++ combine (seq (k + length l1) (length l2)) l2.
Proof.
  induction l1 as [| a l1 IH]; intros k; simpl.
  - rewrite Nat.add_0_r. reflexivity.
  - rewrite IH. replace (S k + length l1)%nat with (k + S (length l1))%nat
      by lia. reflexivity.
Qed.

Lemma mapM_app_raise {A B} (f : A -> M B) (l1 l2 : list A) (a : A)
    (bs : list B) (e : exn) :
  mapM f l1 = Ok bs -> f a = Raise e -> mapM f (l1 ++ a :: l2) = Raise e.
Proof.
  revert bs. induction l1 as [| x l1 IH]; simpl; intros bs Hmap Hfail.
  - rewrite Hfail. reflexivity.
  - bind_inv Hmap as b Eb. bind_inv Hmap as bs' Ebs.
    rewrite Eb. simpl. rewrite (IH _ Ebs Hfail). reflexivity.
Qed.

(** X18: an empty string as raw value of a [datetime] or [timespan]
    column makes the row constructor raise IndexError when the cells before
    it decode: the last character is read before the [try], so nothing
    catches the exception and no converter is asked. *)
Theorem empty_temporal_text_raises
    (columns : list KustoResultColumn) (before after : list json)
    (r : KustoResultRow) (column : KustoResultColumn) (declared : string) :
  KustoResultRow_init columns (JList before) = Ok r ->
  nth_error columns (length before) = Some column ->
  column_type column = JStr declared ->
  PyStr.lower declared = "datetime" \/ PyStr.lower declared = "timespan" ->
  KustoResultRow_init columns (JList (before ++ JStr "" :: after))
  = Raise IndexError.
Proof.
  unfold KustoResultRow_init, enumerate. simpl.
  intros Hbefore Hcol Htype Htemporal.
  rewrite combine_seq_app, foldM_app, Hbefore. simpl.
  unfold decode_cell. rewrite Hcol, Htype.
  destruct Htemporal as [-> | ->]; reflexivity.
Qed.

(** X19: when the rows hold no error object and a row fails to decode
    after the rows before it decoded, the constructor raises the exception
    of that row: one failing row ends the construction of the table, and no
    partial table is returned. *)
Theorem failing_row_aborts_table
    (json_table : json) name id kind
    (cols : list KustoResultColumn) (before after : list json) (bad : json)
    (decoded : list KustoResultRow) (e : exn) :
  table_header json_table = Ok (name, id, kind, cols) ->
  subscript_str json_table "Rows" = Ok (JList (before ++ bad :: after)) ->
  filter is_dict (before ++ bad :: after) = [] ->
  mapM (KustoResultRow_init cols) before = Ok decoded ->
  KustoResultRow_init cols bad = Raise e ->
  KustoResultTable_init json_table = Raise e.
Proof.
  intros Hheader Hrows Hfilter Hbefore Hbad.
  unfold KustoResultTable_init. rewrite Hheader. simpl.
  rewrite Hrows. simpl. rewrite Hfilter.
  rewrite (mapM_app_raise _ _ after _ Hbefore Hbad). reflexivity.
Qed.

End Failures.

(** ** The further properties on concrete documents *)

(** A row of two cells against three columns: a shorter row decodes. *)
Lemma row_cells_bound_witness :
  exists r,
    KustoResultRow_init (H := Sample.host true)
      [Sample.column true "a" "long" 0; Sample.column true "b" "string" 1;
       Sample.column true "c" "datetime" 2]
      (JList [JInt 1; JStr "x"]) = Ok r
    /\ length (row_to_list r) = 2%nat.
Proof.
  eexists. split; [reflexivity |].
  refine (proj1 (@row_cells_bound (Sample.host true)
                   [Sample.column true "a" "long" 0;
                    Sample.column true "b" "string" 1;
                    Sample.column true "c" "datetime" 2]
                   [JInt 1; JStr "x"] _ _)).
  reflexivity.
Defined.

(** A timestamp and a number: two values, two side values. *)
Lemma hidden_values_parallel_witness :
  exists r,
    KustoResultRow_init (H := Sample.host true)
      [Sample.column true "ts" "datetime" 0; Sample.column true "n" "long" 1]
      (JList [JStr "2021-01-01T00:00:00.1234567"; JInt 5]) = Ok r
    /\ length (_hidden_values r) = length (row_to_list r).
Proof.
  eexists. split; [reflexivity |].
  refine (@hidden_values_parallel (Sample.host true)
            [Sample.column true "ts" "datetime" 0;
             Sample.column true "n" "long" 1]
            [JStr "2021-01-01T00:00:00.1234567"; JInt 5] _ _).
  reflexivity.
Defined.

(** Two columns that share a name: the iteration yields one value of
    two. *)
Lemma row_iter_prefix_witness :
  exists r,
    KustoResultRow_init (H := Sample.host true)
      [Sample.column true "a" "long" 0; Sample.column true "a" "long" 1]
      (JList [JInt 1; JInt 2]) = Ok r
    /\ row_to_list r = [VJson (JInt 1); VJson (JInt 2)]
    /\ row_iter r = Ok (firstn 1 (row_to_list r)).
Proof.
  eexists. split; [reflexivity |]. split; [reflexivity |].
  refine (proj1 (proj2 (@row_iter_prefix (Sample.host true)
                          [Sample.column true "a" "long" 0;
                           Sample.column true "a" "long" 1]
                          [JInt 1; JInt 2] _ _))).
  reflexivity.
Defined.

(** A negative duration and a timestamp, both with a seventh digit. *)
Lemma seventh_digit_bounds_witness :
  exists r,
    KustoResultRow_init (H := Sample.host true)
      [Sample.column true "d" "timespan" 0; Sample.column true "ts" "datetime" 1]
      (JList [JStr "-00:00:01.1234567"; JStr "2021-01-01T00:00:00.1234569"])
    = Ok r
    /\ _seventh_digit r = [(KName "d", (-7)%Z); (KName "ts", 9%Z)]
    /\ Forall (fun kv => (-9 <= snd kv <= 9)%Z /\ snd kv <> 0%Z)
              (_seventh_digit r).
Proof.
  eexists. split; [reflexivity |]. split; [reflexivity |].
  refine (@seventh_digit_bounds (Sample.host true)
            [Sample.column true "d" "timespan" 0;
             Sample.column true "ts" "datetime" 1]
            [JStr "-00:00:01.1234567"; JStr "2021-01-01T00:00:00.1234569"]
            _ _).
  reflexivity.
Defined.

(** Two columns named [a]: the name finds the value of the second. *)
Lemma name_lookup_last_column_witness :
  exists r,
    KustoResultRow_init (H := Sample.host true)
      [Sample.column true "a" "long" 0; Sample.column true "a" "long" 1]
      (JList [JInt 1; JInt 2]) = Ok r
    /\ exists v,
         row_getitem r (JInt 1) = Ok v /\ row_getitem r (JStr "a") = Ok v.
Proof.
  eexists. split; [reflexivity |].
  apply (@name_lookup_last_column (Sample.host true)
           [Sample.column true "a" "long" 0; Sample.column true "a" "long" 1]
           ["a"; "a"]
           ltac:(repeat constructor; eexists; reflexivity) eq_refl
           [JInt 1; JInt 2] _ 1%nat "a" eq_refl eq_refl).
  - simpl. lia.
  - intros j Hj. simpl in Hj. lia.
Defined.

(** A name that no column has. *)
Lemma unknown_name_lookup_witness :
  exists r,
    KustoResultRow_init (H := Sample.host true)
      [Sample.column true "a" "long" 0] (JList [JInt 1]) = Ok r
    /\ row_getitem r (JStr "b") = Raise KeyError.
Proof.
  eexists. split; [reflexivity |].
  apply (@unknown_name_lookup (Sample.host true)
           [Sample.column true "a" "long" 0] ["a"]
           ltac:(repeat constructor; eexists; reflexivity) eq_refl
           [JInt 1] _ "b" eq_refl).
  simpl. intros [Heq | []]. discriminate Heq.
Defined.

(** An empty primary result. *)
Lemma table_requires_keys_witness :
  exists d raw_columns raw raw_rows,
    JDict [("TableKind", JStr "PrimaryResult");
           ("Columns", JList []); ("Rows", JList [])]
    = (JDict d : json Sample.dec)
    /\ assoc (H := Sample.host true) "Columns" d = Some raw_columns
    /\ assoc (H := Sample.host true) "Rows" d = Some raw
    /\ py_iter (H := Sample.host true) raw = Ok raw_rows
    /\ forallb (fun row => negb (is_dict (H := Sample.host true) row))
               raw_rows = true.
Proof.
  exact (@table_requires_keys (Sample.host true)
           (JDict [("TableKind", JStr "PrimaryResult");
                   ("Columns", JList []); ("Rows", JList [])])
           _ eq_refl).
Defined.

(** Columns without rows. *)
Lemma missing_key_raises_witness :
  KustoResultTable_init (H := Sample.host true)
    (JDict [("Columns",
             JList [JDict [("ColumnName", JStr "a");
                           ("ColumnType", JStr "long")]])])
  = Raise KeyError.
Proof.
  apply (@missing_key_raises (Sample.host true)); [exact I |].
  right. split; [eexists; reflexivity | reflexivity].
Defined.

(** A kind that the enum does not have. *)
Lemma unknown_table_kind_witness :
  KustoResultTable_init (H := Sample.host true)
    (JDict [("TableKind", JStr "Unknown");
            ("Columns", JList []); ("Rows", JList [])])
  = Raise KeyError.
Proof.
  apply (@unknown_table_kind (Sample.host true)
           [("TableKind", JStr "Unknown");
            ("Columns", JList []); ("Rows", JList [])]
           "Unknown" eq_refl).
  intros m. destruct m; discriminate.
Defined.

(** Two rows of one column. *)
Lemma rows_in_document_order_witness :
  exists t,
    KustoResultTable_init (H := Sample.host true)
      (JDict [("Columns",
               JList [JDict [("ColumnName", JStr "a");
                             ("ColumnType", JStr "long")]]);
              ("Rows", JList [JList [JInt 1]; JList [JInt 2]])]) = Ok t
    /\ rows_count t = 2%nat.
Proof.
  eexists. split; [reflexivity |].
  refine (proj1 (@rows_in_document_order (Sample.host true)
                   [("Columns",
                     JList [JDict [("ColumnName", JStr "a");
                                   ("ColumnType", JStr "long")]]);
                    ("Rows", JList [JList [JInt 1]; JList [JInt 2]])]
                   [JList [JInt 1]; JList [JInt 2]] _ _ _));
    reflexivity.
Defined.

(** Two columns. *)
Lemma columns_in_document_order_witness :
  exists t,
    KustoResultTable_init (H := Sample.host true)
      (JDict [("Columns",
               JList [JDict [("ColumnName", JStr "a");
                             ("ColumnType", JStr "long")];
                      JDict [("ColumnName", JStr "b");
                             ("DataType", JStr "String")]]);
              ("Rows", JList [])]) = Ok t
    /\ table_columns_count t = 2%nat.
Proof.
  eexists. split; [reflexivity |].
  refine (proj1 (@columns_in_document_order (Sample.host true)
                   [("Columns",
                     JList [JDict [("ColumnName", JStr "a");
                                   ("ColumnType", JStr "long")];
                            JDict [("ColumnName", JStr "b");
                                   ("DataType", JStr "String")]]);
                    ("Rows", JList [])]
                   [JDict [("ColumnName", JStr "a");
                           ("ColumnType", JStr "long")];
                    JDict [("ColumnName", JStr "b");
                           ("DataType", JStr "String")]] _ _ _));
    reflexivity.
Defined.

(** An empty object among the rows. *)
Lemma malformed_error_object_witness :
  KustoResultTable_init (H := Sample.host true)
    (JDict [("Columns", JList []); ("Rows", JList [JList []; JDict []])])
  = Raise KeyError.
Proof.
  apply (@malformed_error_object (Sample.host true)
           (JDict [("Columns", JList []); ("Rows", JList [JList []; JDict []])])
           (JNull, JNull, None, []) [JList []] [] (JDict []) KeyError);
    reflexivity.
Defined.

(** A number, a text and a null timestamp. *)
Lemma plain_row_passes_through_witness :
  exists r,
    KustoResultRow_init (H := Sample.host true)
      [Sample.column true "n" "long" 0; Sample.column true "s" "String" 1;
       Sample.column true "ts" "DateTime" 2]
      (JList [JInt 1; JStr "x"; JNull]) = Ok r
    /\ row_to_list r = [VJson (JInt 1); VJson (JStr "x"); VJson JNull]
    /\ _hidden_values r = [VJson (JInt 1); VJson (JStr "x"); VJson JNull]
    /\ _seventh_digit r = [].
Proof.
  apply (@plain_row_passes_through (Sample.host true)
           [Sample.column true "n" "long" 0; Sample.column true "s" "String" 1;
            Sample.column true "ts" "DateTime" 2]
           [JInt 1; JStr "x"; JNull]).
  reflexivity.
Defined.

(** Six fractional digits and a zone letter. *)
Lemma datetime_without_seventh_digit_witness :
  KustoResultRow_init (H := Sample.host true)
    [Sample.column true "ts" "datetime" 0]
    (JList [JStr "2021-01-01T00:00:00.123456Z"])
  = Ok {| _value_by_name :=
            [(KName "ts",
              VDatetime ("2021-01-01T00:00:00.123456Z"
                         : @datetime (Sample.host true)))];
          _value_by_index :=
            [VDatetime ("2021-01-01T00:00:00.123456Z"
                        : @datetime (Sample.host true))];
          _hidden_values := [VJson (JStr "2021-01-01T00:00:00.123456Z")];
          _seventh_digit := [] |}.
Proof.
  refine (@datetime_without_seventh_digit (Sample.host true)
            "datetime" "ts" "2021-01-01T00" "00" "00" "123456Z"
            "2021-01-01T00:00:00.123456Z"
            eq_refl eq_refl eq_refl eq_refl eq_refl eq_refl _ eq_refl).
  right. split; apply Nat.leb_le; reflexivity.
Defined.

(** Seven fractional digits and a zone letter. *)
Lemma datetime_seventh_digit_with_suffix_witness :
  KustoResultRow_init (H := Sample.host true)
    [Sample.column true "ts" "datetime" 0]
    (JList [JStr "2021-01-01T00:00:00.1234567Z"])
  = Ok {| _value_by_name :=
            [(KName "ts",
              VDatetime ("2021-01-01T00:00:00.123456Z"
                         : @datetime (Sample.host true)))];
          _value_by_index :=
            [VDatetime ("2021-01-01T00:00:00.123456Z"
                        : @datetime (Sample.host true))];
          _hidden_values := [VJson (JStr "2021-01-01T00:00:00.123456700Z")];
          _seventh_digit := [(KName "ts", 7%Z)] |}.
Proof.
  exact (@datetime_seventh_digit_with_suffix (Sample.host true)
           "datetime" "ts" "2021-01-01T00" "00" "00" "123456" "7"%char
           "Z"%char "2021-01-01T00:00:00.123456Z"
           eq_refl eq_refl eq_refl eq_refl eq_refl eq_refl eq_refl eq_refl
           eq_refl).
Defined.

(** A negative duration with seven fractional digits. *)
Lemma timespan_seventh_digit_row_witness :
  KustoResultRow_init (H := Sample.host true)
    [Sample.column true "d" "timespan" 0]
    (JList [JStr "-00:00:01.1234567"])
  = Ok {| _value_by_name := [(KName "d", VTimedelta (-1123456)%Z)];
          _value_by_index := [VTimedelta (-1123456)%Z];
          _hidden_values :=
            [VJson (JFloat (((-11234567)%Z, 7%nat)
                            : @float (Sample.host true)))];
          _seventh_digit := [(KName "d", (-7)%Z)] |}.
Proof.
  exact (@timespan_seventh_digit_row (Sample.host true)
           "timespan" "d" "-00" "00" "01" "123456" "7"%char (-1123456)%Z
           ((-11234567)%Z, 7%nat)
           eq_refl eq_refl eq_refl eq_refl eq_refl eq_refl eq_refl eq_refl
           eq_refl).
Defined.

(** An empty text in the timestamp column, after a number. *)
Lemma empty_temporal_text_raises_witness :
  KustoResultRow_init (H := Sample.host true)
    [Sample.column true "n" "long" 0; Sample.column true "ts" "datetime" 1]
    (JList [JInt 1; JStr ""])
  = Raise IndexError.
Proof.
  exact (@empty_temporal_text_raises (Sample.host true)
           [Sample.column true "n" "long" 0;
            Sample.column true "ts" "datetime" 1]
           [JInt 1] [] _ (Sample.column true "ts" "datetime" 1) "datetime"
           eq_refl eq_refl eq_refl (or_introl eq_refl)).
Defined.

(** A good row and then a row with an empty timestamp. *)
Lemma failing_row_aborts_table_witness :
  KustoResultTable_init (H := Sample.host true)
    (JDict [("Columns",
             JList [JDict [("ColumnName", JStr "ts");
                           ("ColumnType", JStr "datetime")]]);
            ("Rows",
             JList [JList [JStr "2021-01-01T00:00:00"]; JList [JStr ""]])])
  = Raise IndexError.
Proof.
  refine (@failing_row_aborts_table (Sample.host true)
           (JDict [("Columns",
                    JList [JDict [("ColumnName", JStr "ts");
                                  ("ColumnType", JStr "datetime")]]);
                   ("Rows",
                    JList [JList [JStr "2021-01-01T00:00:00"];
                           JList [JStr ""]])])
           JNull JNull None [Sample.column true "ts" "datetime" 0]
           [JList [JStr "2021-01-01T00:00:00"]] [] (JList [JStr ""])
           _ IndexError _ _ _ _ _);
    reflexivity.
Defined.

(** Eight fractional digits. *)
Lemma datetime_eight_digits_witness :
  KustoResultRow_init (H := Sample.host true)
    [Sample.column true "ts" "datetime" 0]
    (JList [JStr "2021-01-01T00:00:00.12345678"])
  = Ok {| _value_by_name :=
            [(KName "ts",
              VDatetime ("2021-01-01T00:00:00.1234567"
                         : @datetime (Sample.host true)))];
          _value_by_index :=
            [VDatetime ("2021-01-01T00:00:00.1234567"
                        : @datetime (Sample.host true))];
          _hidden_values := [VJson (JStr "2021-01-01T00:00:00.1234567700")];
          _seventh_digit := [(KName "ts", 7%Z)] |}.
Proof.
  exact (@datetime_eight_digits (Sample.host true)
           "datetime" "ts" "2021-01-01T00" "00" "00" "123456" "7"%char
           "8"%char "2021-01-01T00:00:00.1234567"
           eq_refl eq_refl eq_refl eq_refl eq_refl eq_refl eq_refl eq_refl
           eq_refl).
Defined.

(** A negative duration whose seventh digit is 7 stores -7, and a
    timestamp whose seventh digit is 0, before a zone letter, stores
    nothing. *)
Lemma seventh_digit_recorded_witness :
  (exists self',
     decode_cell (H := Sample.host true)
       [Sample.column true "d" "timespan" 0] empty_row
       (0%nat, JStr "-00:00:01.1234567") = Ok self'
     /\ _seventh_digit self' = [(KName "d", (-7)%Z)])
  /\ (exists self',
        decode_cell (H := Sample.host true)
          [Sample.column true "ts" "datetime" 0] empty_row
          (0%nat, JStr "2021-01-01T00:00:00.1234560Z") = Ok self'
        /\ _seventh_digit self' = []).
Proof.
  split.
  - eexists. split; [reflexivity |].
    destruct (@seventh_digit_recorded (Sample.host true)
                [Sample.column true "d" "timespan" 0] empty_row _ 0%nat
                (Sample.column true "d" "timespan" 0)
                "timespan" "d" "-00" "00" "01" "123456" 7%nat ""
                (VTimedelta (-1123456)%Z)
                eq_refl eq_refl eq_refl (or_intror eq_refl)
                eq_refl eq_refl eq_refl eq_refl eq_refl
                ltac:(lia) (or_introl eq_refl) eq_refl eq_refl)
      as [_ Hrecorded].
    destruct (Hrecorded ltac:(discriminate)) as (_ & Hts & _).
    destruct (Hts eq_refl) as (td & Htyped & Hdigits).
    injection Htyped as <-. exact Hdigits.
  - eexists. split; [reflexivity |].
    refine (proj1 (@seventh_digit_recorded (Sample.host true)
                     [Sample.column true "ts" "datetime" 0] empty_row _ 0%nat
                     (Sample.column true "ts" "datetime" 0)
                     "datetime" "ts" "2021-01-01T00" "00" "00" "123456"
                     0%nat "Z"
                     (VDatetime ("2021-01-01T00:00:00.123456Z"
                                 : @datetime (Sample.host true)))
                     eq_refl eq_refl eq_refl (or_introl eq_refl)
                     eq_refl eq_refl eq_refl eq_refl eq_refl
                     _ _ eq_refl eq_refl) eq_refl).
    + lia.
    + right. exists "Z"%char. split; [| reflexivity].
      left. split; apply Nat.leb_le; reflexivity.
Defined.
